(** * Extended statistics commands (src/backend/commands/statscmds.c)

    A shallow embedding of [compare_int16], [CreateStatistics] and
    [RemoveStatisticsById], followed by the properties of the
    specification that concern them.

    The two commands run against the system catalogs.  The catalog rows
    they write ([pg_statistic_ext], [pg_depend]) and the calls they make
    on the invalidation bus are kept in an explicit [State]; the services
    they only consult (name resolution, the relation cache, the attribute
    and type caches, the current user) are variables of the section, as
    are the compile-time constants that live in headers. *)

From Stdlib Require Import ZArith List String Bool Lia Permutation Sorted.
Import ListNotations.
Local Open Scope Z_scope.

(** ** Machine integers *)

(** A signed [w]-bit integer is a [Z] in [[-2^(w-1), 2^(w-1))]; [wrap w]
    is the two's complement reduction into that range. *)
Definition wrap (w : Z) (x : Z) : Z :=
  (x + 2 ^ (w - 1)) mod 2 ^ w - 2 ^ (w - 1).

Definition INT16_MIN : Z := -32768.
Definition INT16_MAX : Z := 32767.

Definition int16_range (x : Z) : Prop := INT16_MIN <= x <= INT16_MAX.

(** ** Basic catalog types *)

Definition Oid := Z.
Definition InvalidOid : Oid := 0.

Definition AttrNumber := Z.   (* int16 *)

Definition Name := string.    (* NameData *)

Record ObjectAddress : Type := mkObjectAddress
  { classId : Oid;
    objectId : Oid;
    objectSubId : Z }.

Definition InvalidObjectAddress : ObjectAddress :=
  {| classId := InvalidOid; objectId := InvalidOid; objectSubId := 0 |}.

(** [ObjectAddressSet(addr, class_id, object_id)] *)
Definition ObjectAddressSet (class_id object_id : Oid) : ObjectAddress :=
  {| classId := class_id; objectId := object_id; objectSubId := 0 |}.

Inductive relkind : Type :=
| RELKIND_RELATION
| RELKIND_INDEX
| RELKIND_SEQUENCE
| RELKIND_TOASTVALUE
| RELKIND_VIEW
| RELKIND_MATVIEW
| RELKIND_COMPOSITE_TYPE
| RELKIND_FOREIGN_TABLE
| RELKIND_PARTITIONED_TABLE.

Definition relkind_eqb (a b : relkind) : bool :=
  match a, b with
  | RELKIND_RELATION, RELKIND_RELATION
  | RELKIND_INDEX, RELKIND_INDEX
  | RELKIND_SEQUENCE, RELKIND_SEQUENCE
  | RELKIND_TOASTVALUE, RELKIND_TOASTVALUE
  | RELKIND_VIEW, RELKIND_VIEW
  | RELKIND_MATVIEW, RELKIND_MATVIEW
  | RELKIND_COMPOSITE_TYPE, RELKIND_COMPOSITE_TYPE
  | RELKIND_FOREIGN_TABLE, RELKIND_FOREIGN_TABLE
  | RELKIND_PARTITIONED_TABLE, RELKIND_PARTITIONED_TABLE => true
  | _, _ => false
  end.

(** The part of a relation cache entry the command reads:
    [RelationGetRelid(rel)] and [rel->rd_rel->relkind]. *)
Record RelationData : Type := mkRelation
  { rd_id : Oid;
    rd_relkind : relkind }.

Definition RelationGetRelid (rel : RelationData) : Oid := rd_id rel.

Record FormData_pg_attribute : Type := mkAttribute
  { attnum : AttrNumber;
    atttypid : Oid }.

Record TypeCacheEntry : Type := mkTypeCacheEntry
  { lt_opr : Oid }.

(** Modelled from the spec: [defGetBoolean] (commands/define.c) is not
    part of the sources at hand; an option is a (name, boolean) pair as
    in section 4.3, and [defGetBoolean] reads the boolean. *)
Record DefElem : Type := mkDefElem
  { defname : string;
    defarg : bool }.

Definition defGetBoolean (opt : DefElem) : bool := defarg opt.

Record CreateStatsStmt : Type := mkCreateStatsStmt
  { defnames : list string;      (* qualified name *)
    relation : string;           (* RangeVar of the table *)
    keys : list string;          (* column names *)
    options : list DefElem;      (* WITH (...) *)
    if_not_exists : bool }.

Inductive StatsKind : Type :=
| STATS_EXT_NDISTINCT
| STATS_EXT_DEPENDENCIES.

Definition bytea := list Byte.byte.

(** A row of [pg_statistic_ext].  The two payload columns are nullable:
    [None] is a column whose [nulls[]] entry is [true]. *)
Record FormData_pg_statistic_ext : Type := mkStatExt
  { stxrelid : Oid;
    stxname : Name;
    stxnamespace : Oid;
    stxowner : Oid;
    stxkeys : list AttrNumber;
    stxkind : list StatsKind;
    stxndistinct : option bytea;
    stxdependencies : option bytea }.

(** A heap tuple of [pg_statistic_ext]: the row and the object identifier
    the heap assigned to it ([HeapTupleGetOid]). *)
Record HeapTupleData : Type := mkHeapTuple
  { t_oid : Oid;
    t_data : FormData_pg_statistic_ext }.

Definition HeapTupleGetOid (tup : HeapTupleData) : Oid := t_oid tup.

Inductive DependencyType : Type :=
| DEPENDENCY_NORMAL
| DEPENDENCY_AUTO
| DEPENDENCY_INTERNAL
| DEPENDENCY_EXTENSION
| DEPENDENCY_PIN.

Record FormData_pg_depend : Type := mkDepend
  { depender : ObjectAddress;
    referenced : ObjectAddress;
    deptype : DependencyType }.

(** ** Errors *)

Inductive sqlstate : Type :=
| ERRCODE_DUPLICATE_OBJECT
| ERRCODE_WRONG_OBJECT_TYPE
| ERRCODE_UNDEFINED_COLUMN
| ERRCODE_FEATURE_NOT_SUPPORTED
| ERRCODE_TOO_MANY_COLUMNS
| ERRCODE_INVALID_OBJECT_DEFINITION
| ERRCODE_DUPLICATE_COLUMN
| ERRCODE_SYNTAX_ERROR
| ERRCODE_UNDEFINED_TABLE
| ERRCODE_INTERNAL_ERROR.     (* what elog(ERROR, ...) reports *)

(** The outcome of a computation: a value, an [ereport(ERROR)] that
    leaves the function with the given code, or a failed [Assert]. *)
Inductive result (A : Type) : Type :=
| Ok (a : A)
| Error (sqlerrcode : sqlstate)
| Trap.

Arguments Ok {A} a.
Arguments Error {A} sqlerrcode.
Arguments Trap {A}.

(** ** Catalog state and side effects *)

(** The calls with an effect outside the function, in program order. *)
Inductive Effect : Type :=
| Eff_ereport_NOTICE (sqlerrcode : sqlstate)
| Eff_CatalogTupleInsert (tup : HeapTupleData)
| Eff_CacheInvalidateRelcache (relid : Oid)
| Eff_recordDependencyOn (dep : FormData_pg_depend)
| Eff_simple_heap_delete (tup : HeapTupleData).

Record State : Type := mkState
  { pg_statistic_ext : list HeapTupleData;
    pg_depend : list FormData_pg_depend;
    nextOid : Oid;
    effects : list Effect }.

(** State and error monad of the commands. *)
Definition M (A : Type) : Type := State -> result (A * State).

Definition ret {A : Type} (a : A) : M A := fun st => Ok (a, st).

Definition bind {A B : Type} (c : M A) (k : A -> M B) : M B :=
  fun st =>
    match c st with
    | Ok (a, st') => k a st'
    | Error e => Error e
    | Trap => Trap
    end.

Definition lift {A : Type} (r : result A) : M A :=
  fun st =>
    match r with
    | Ok a => Ok (a, st)
    | Error e => Error e
    | Trap => Trap
    end.

Definition gets {A : Type} (f : State -> A) : M A := fun st => Ok (f st, st).

Definition emit (e : Effect) : M unit :=
  fun st =>
    Ok (tt, {| pg_statistic_ext := pg_statistic_ext st;
               pg_depend := pg_depend st;
               nextOid := nextOid st;
               effects := effects st ++ [e] |}).

Declare Scope stats_scope.
Delimit Scope stats_scope with stats.
Notation "x <- c ;; k" := (bind c (fun x => k))
  (at level 61, c at next level, right associativity) : stats_scope.
Notation "' pat <- c ;; k" := (bind c (fun x => let 'pat := x in k))
  (at level 61, pat pattern, c at next level, right associativity) : stats_scope.
Notation "c ;; k" := (bind c (fun _ => k))
  (at level 61, right associativity) : stats_scope.
Local Open Scope stats_scope.

(** [ereport(ERROR, (errcode(code), ...))] does not return. *)
Definition ereport_ERROR {A : Type} (code : sqlstate) : M A :=
  fun _ => Error code.

(** [ereport(NOTICE, (errcode(code), ...))] reports and returns. *)
Definition ereport_NOTICE (code : sqlstate) : M unit :=
  emit (Eff_ereport_NOTICE code).

(** [elog(ERROR, ...)]: an error without an explicit code. *)
Definition elog_ERROR {A : Type} : M A :=
  fun _ => Error ERRCODE_INTERNAL_ERROR.

(** ** compare_int16 and qsort *)

(** The comparator reads its two [int16] arguments into [int] variables
    [av] and [bv] and returns [av - bv], an [int] subtraction. *)
Definition compare_int16 (a b : Z) : Z :=
  let av := a in
  let bv := b in
  wrap 32 (av - bv).

(** [qsort] is the C library's; it is modelled by insertion sort driven
    by the comparator, as the C interface prescribes ([cmp x y <= 0]
    puts [x] no later than [y]). *)
Fixpoint qsort_insert (cmp : Z -> Z -> Z) (x : Z) (l : list Z) : list Z :=
  match l with
  | [] => [x]
  | y :: l' => if cmp x y <=? 0 then x :: y :: l' else y :: qsort_insert cmp x l'
  end.

Fixpoint qsort (cmp : Z -> Z -> Z) (l : list Z) : list Z :=
  match l with
  | [] => []
  | x :: l' => qsort_insert cmp x (qsort cmp l')
  end.

(** [for (i = 1; i < numcols; i++) if (attnums[i] == attnums[i - 1]) ...] *)
Fixpoint has_adjacent_duplicate (attnums : list AttrNumber) : bool :=
  match attnums with
  | a :: (b :: _) as rest => if b =? a then true else has_adjacent_duplicate rest
  | _ => false
  end.

Definition buildint2vector (attnums : list AttrNumber) : list AttrNumber := attnums.

(** ** Catalog access *)

(** [SearchSysCacheExists2(STATEXTNAMENSP, name, namespace)] *)
Definition SearchSysCacheExists2_STATEXTNAMENSP (name : Name) (nsp : Oid) : M bool :=
  gets (fun st =>
    existsb (fun tup => String.eqb (stxname (t_data tup)) name
                        && (stxnamespace (t_data tup) =? nsp))
            (pg_statistic_ext st)).

(** [SearchSysCache1(STATEXTOID, oid)] *)
Definition SearchSysCache1_STATEXTOID (statsOid : Oid) : M (option HeapTupleData) :=
  gets (fun st => find (fun tup => t_oid tup =? statsOid) (pg_statistic_ext st)).

(** [CatalogTupleInsert(statrel, htup)]: the heap assigns the tuple its
    object identifier and the row is added to the catalog.  The result is
    the tuple as stored. *)
Definition CatalogTupleInsert (row : FormData_pg_statistic_ext) : M HeapTupleData :=
  fun st =>
    let tup := {| t_oid := nextOid st; t_data := row |} in
    Ok (tup, {| pg_statistic_ext := pg_statistic_ext st ++ [tup];
                pg_depend := pg_depend st;
                nextOid := nextOid st + 1;
                effects := effects st ++ [Eff_CatalogTupleInsert tup] |}).

(** Removal of the first tuple that carries the given identifier: the
    tuple [SearchSysCache1_STATEXTOID] returned. *)
Fixpoint heap_remove (statsOid : Oid) (rows : list HeapTupleData) : list HeapTupleData :=
  match rows with
  | [] => []
  | tup :: rows' =>
      if t_oid tup =? statsOid then rows' else tup :: heap_remove statsOid rows'
  end.

(** [simple_heap_delete(relation, &tup->t_self)] *)
Definition simple_heap_delete (tup : HeapTupleData) : M unit :=
  fun st =>
    Ok (tt, {| pg_statistic_ext := heap_remove (t_oid tup) (pg_statistic_ext st);
               pg_depend := pg_depend st;
               nextOid := nextOid st;
               effects := effects st ++ [Eff_simple_heap_delete tup] |}).

(** [CacheInvalidateRelcache(rel)] and [CacheInvalidateRelcacheByRelid(relid)]
    both register an invalidation for the relation's identifier. *)
Definition CacheInvalidateRelcache (rel : RelationData) : M unit :=
  emit (Eff_CacheInvalidateRelcache (RelationGetRelid rel)).

Definition CacheInvalidateRelcacheByRelid (relid : Oid) : M unit :=
  emit (Eff_CacheInvalidateRelcache relid).

(** [recordDependencyOn(&depender, &referenced, behavior)] *)
Definition recordDependencyOn (child parent : ObjectAddress)
    (behavior : DependencyType) : M unit :=
  fun st =>
    let dep := {| depender := child; referenced := parent; deptype := behavior |} in
    Ok (tt, {| pg_statistic_ext := pg_statistic_ext st;
               pg_depend := pg_depend st ++ [dep];
               nextOid := nextOid st;
               effects := effects st ++ [Eff_recordDependencyOn dep] |}).

(** ** The option loop *)

(** [foreach(l, stmt->options)]: the three variables the loop updates
    are threaded through. *)
Fixpoint options_loop (l : list DefElem)
    (build_ndistinct build_dependencies requested_type : bool)
    : result (bool * bool * bool) :=
  match l with
  | [] => Ok (build_ndistinct, build_dependencies, requested_type)
  | opt :: l' =>
      if String.eqb (defname opt) "ndistinct"%string then
        options_loop l' (defGetBoolean opt) build_dependencies true
      else if String.eqb (defname opt) "dependencies"%string then
        options_loop l' build_ndistinct (defGetBoolean opt) true
      else Error ERRCODE_SYNTAX_ERROR
  end.

(** Lines 200-227: the loop from [false, false, false], then the default
    when no type was requested. *)
Definition select_kinds (opts : list DefElem) : result (bool * bool) :=
  match options_loop opts false false false with
  | Ok (build_ndistinct, build_dependencies, requested_type) =>
      if negb requested_type then Ok (true, true)
      else Ok (build_ndistinct, build_dependencies)
  | Error e => Error e
  | Trap => Trap
  end.

(** Lines 230-234: the array [types] of enabled statistic types, its
    length being [ntypes]. *)
Definition enabled_types (build_ndistinct build_dependencies : bool) : list StatsKind :=
  (if build_ndistinct then [STATS_EXT_NDISTINCT] else [])
  ++ (if build_dependencies then [STATS_EXT_DEPENDENCIES] else []).

(** ** An example database

    A table [t] with integer columns [a] to [i], a column [x] whose type
    has no less-than operator and the system column [ctid]; a view [v];
    and catalog states with and without a statistics object [s1].  The
    closed examples at the end of the file run the commands on it. *)
Module Example.

Definition STATS_MAX_DIMENSIONS : nat := 8.
Definition RelationRelationId : Oid := 1259.
Definition NamespaceRelationId : Oid := 2615.
Definition StatisticExtRelationId : Oid := 3381.

Definition public : Oid := 2200.
Definition t_relid : Oid := 16384.
Definition v_relid : Oid := 16400.
Definition int4 : Oid := 23.
Definition xid : Oid := 28.
Definition tid : Oid := 27.

Definition QualifiedNameGetCreationNamespace (names : list string)
    : result (Oid * string) :=
  match names with
  | [name] => Ok (public, name)
  | _ => Error ERRCODE_SYNTAX_ERROR
  end.

Definition namestrcpy (s : string) : Name := s.

Definition relation_openrv (rv : string) : result RelationData :=
  if String.eqb rv "t" then Ok {| rd_id := t_relid; rd_relkind := RELKIND_RELATION |}
  else if String.eqb rv "v" then Ok {| rd_id := v_relid; rd_relkind := RELKIND_VIEW |}
  else Error ERRCODE_UNDEFINED_TABLE.

Definition pg_attribute : list (Oid * string * FormData_pg_attribute) :=
  [ (t_relid, "a"%string, {| attnum := 1; atttypid := int4 |});
    (t_relid, "b"%string, {| attnum := 2; atttypid := int4 |});
    (t_relid, "c"%string, {| attnum := 3; atttypid := int4 |});
    (t_relid, "d"%string, {| attnum := 4; atttypid := int4 |});
    (t_relid, "e"%string, {| attnum := 5; atttypid := int4 |});
    (t_relid, "f"%string, {| attnum := 6; atttypid := int4 |});
    (t_relid, "g"%string, {| attnum := 7; atttypid := int4 |});
    (t_relid, "h"%string, {| attnum := 8; atttypid := int4 |});
    (t_relid, "i"%string, {| attnum := 9; atttypid := int4 |});
    (t_relid, "x"%string, {| attnum := 10; atttypid := xid |});
    (t_relid, "ctid"%string, {| attnum := -1; atttypid := tid |}) ].

Definition SearchSysCacheAttName (relid : Oid) (attname : string)
    : option FormData_pg_attribute :=
  match find (fun row => (fst (fst row) =? relid) && String.eqb (snd (fst row)) attname)
             pg_attribute with
  | Some row => Some (snd row)
  | None => None
  end.

Definition lookup_type_cache (typid : Oid) : TypeCacheEntry :=
  if typid =? int4 then {| lt_opr := 97 |}
  else if typid =? tid then {| lt_opr := 2799 |}
  else {| lt_opr := InvalidOid |}.

Definition GetUserId : Oid := 10.

Definition empty : State :=
  {| pg_statistic_ext := []; pg_depend := []; nextOid := 16500; effects := [] |}.

Definition s1 : HeapTupleData :=
  {| t_oid := 16450;
     t_data := {| stxrelid := t_relid;
                  stxname := "s1"%string;
                  stxnamespace := public;
                  stxowner := GetUserId;
                  stxkeys := [1; 2];
                  stxkind := [STATS_EXT_NDISTINCT; STATS_EXT_DEPENDENCIES];
                  stxndistinct := None;
                  stxdependencies := None |} |}.

Definition with_s1 : State :=
  {| pg_statistic_ext := [s1];
     pg_depend :=
       [ {| depender := ObjectAddressSet StatisticExtRelationId 16450;
            referenced := ObjectAddressSet RelationRelationId t_relid;
            deptype := DEPENDENCY_AUTO |};
         {| depender := ObjectAddressSet StatisticExtRelationId 16450;
            referenced := ObjectAddressSet NamespaceRelationId public;
            deptype := DEPENDENCY_AUTO |} ];
     nextOid := 16500;
     effects := [] |}.

(** [CREATE STATISTICS name ON keys FROM t WITH (opts)] *)
Definition create (ine : bool) (name : string) (cols : list string)
    (opts : list DefElem) : CreateStatsStmt :=
  {| defnames := [name];
     relation := "t"%string;
     keys := cols;
     options := opts;
     if_not_exists := ine |}.

End Example.

Section StatsCmds.

(** *** Constants from headers *)
Variable STATS_MAX_DIMENSIONS : nat.       (* length of attnums[] *)
Variable USE_ASSERT_CHECKING : bool.       (* whether Assert is compiled in *)
Variable RelationRelationId : Oid.         (* pg_class *)
Variable NamespaceRelationId : Oid.        (* pg_namespace *)
Variable StatisticExtRelationId : Oid.     (* pg_statistic_ext *)

(** *** Services the commands consult *)
Variable QualifiedNameGetCreationNamespace : list string -> result (Oid * string).
Variable namestrcpy : string -> Name.
Variable relation_openrv : string -> result RelationData.
Variable SearchSysCacheAttName : Oid -> string -> option FormData_pg_attribute.
Variable lookup_type_cache : Oid -> TypeCacheEntry.
Variable GetUserId : Oid.

(** [Assert(cond)] *)
Definition Assert (cond : bool) : M unit :=
  fun st => if USE_ASSERT_CHECKING && negb cond then Trap else Ok (tt, st).

(** [foreach(l, stmt->keys)]: [attnums] holds the entries written so
    far and [numcols] is their number. *)
Fixpoint keys_loop (relid : Oid) (l : list string) (attnums : list AttrNumber)
    : result (list AttrNumber) :=
  match l with
  | [] => Ok attnums
  | attname :: l' =>
      let numcols := Z.of_nat (List.length attnums) in
      match SearchSysCacheAttName relid attname with
      | None => Error ERRCODE_UNDEFINED_COLUMN
      | Some attForm =>
          if attnum attForm <? 0 then Error ERRCODE_FEATURE_NOT_SUPPORTED
          else if lt_opr (lookup_type_cache (atttypid attForm)) =? InvalidOid
          then Error ERRCODE_FEATURE_NOT_SUPPORTED
          else if numcols >=? Z.of_nat STATS_MAX_DIMENSIONS
          then Error ERRCODE_TOO_MANY_COLUMNS
          else keys_loop relid l' (attnums ++ [attnum attForm])
      end
  end.

Definition CreateStatistics (stmt : CreateStatsStmt) : M ObjectAddress :=
  '(namespaceId, namestr) <-
      lift (QualifiedNameGetCreationNamespace (defnames stmt)) ;;
  let stxname := namestrcpy namestr in
  found <- SearchSysCacheExists2_STATEXTNAMENSP stxname namespaceId ;;
  if found : bool then
    if if_not_exists stmt then
      ereport_NOTICE ERRCODE_DUPLICATE_OBJECT ;;
      ret InvalidObjectAddress
    else ereport_ERROR ERRCODE_DUPLICATE_OBJECT
  else
  rel <- lift (relation_openrv (relation stmt)) ;;
  let relid := RelationGetRelid rel in
  if negb (relkind_eqb (rd_relkind rel) RELKIND_RELATION)
     && negb (relkind_eqb (rd_relkind rel) RELKIND_MATVIEW)
     && negb (relkind_eqb (rd_relkind rel) RELKIND_FOREIGN_TABLE)
     && negb (relkind_eqb (rd_relkind rel) RELKIND_PARTITIONED_TABLE)
  then ereport_ERROR ERRCODE_WRONG_OBJECT_TYPE
  else
  attnums <- lift (keys_loop relid (keys stmt) []) ;;
  let numcols := Z.of_nat (List.length attnums) in
  if numcols <? 2 then ereport_ERROR ERRCODE_INVALID_OBJECT_DEFINITION
  else
  let attnums := qsort compare_int16 attnums in
  if has_adjacent_duplicate attnums then ereport_ERROR ERRCODE_DUPLICATE_COLUMN
  else
  let stxkeys := buildint2vector attnums in
  '(build_ndistinct, build_dependencies) <- lift (select_kinds (options stmt)) ;;
  let types := enabled_types build_ndistinct build_dependencies in
  let ntypes := Z.of_nat (List.length types) in
  Assert ((ntypes >? 0) && (ntypes <=? 2)) ;;
  let stxkind := types in
  htup <- CatalogTupleInsert
            {| stxrelid := relid;
               stxname := stxname;
               stxnamespace := namespaceId;
               stxowner := GetUserId;
               stxkeys := stxkeys;
               stxkind := stxkind;
               stxndistinct := None;
               stxdependencies := None |} ;;
  let statoid := HeapTupleGetOid htup in
  CacheInvalidateRelcache rel ;;
  let parentobject := ObjectAddressSet RelationRelationId relid in
  let childobject := ObjectAddressSet StatisticExtRelationId statoid in
  recordDependencyOn childobject parentobject DEPENDENCY_AUTO ;;
  let parentobject := ObjectAddressSet NamespaceRelationId namespaceId in
  recordDependencyOn childobject parentobject DEPENDENCY_AUTO ;;
  let address := ObjectAddressSet StatisticExtRelationId statoid in
  ret address.

Definition RemoveStatisticsById (statsOid : Oid) : M unit :=
  tup <- SearchSysCache1_STATEXTOID statsOid ;;
  match tup with
  | None => elog_ERROR
  | Some tup =>
      let statext := t_data tup in
      let relid := stxrelid statext in
      CacheInvalidateRelcacheByRelid relid ;;
      simple_heap_delete tup
  end.


(** *** Vocabulary of the specification *)

(** The column name resolves to an attribute that is not a system
    attribute and whose type has a less-than operator. *)
Definition column_usable (relid : Oid) (attname : string) : bool :=
  match SearchSysCacheAttName relid attname with
  | Some attForm =>
      (0 <=? attnum attForm)
      && negb (lt_opr (lookup_type_cache (atttypid attForm)) =? InvalidOid)
  | None => false
  end.

(** The attribute number a usable column name stands for. *)
Definition column_attnum (relid : Oid) (attname : string) : AttrNumber :=
  match SearchSysCacheAttName relid attname with
  | Some attForm => attnum attForm
  | None => 0
  end.

(** The relation kinds [CreateStatistics] accepts. *)
Definition relkind_has_statistics (k : relkind) : Prop :=
  k = RELKIND_RELATION \/ k = RELKIND_MATVIEW
  \/ k = RELKIND_FOREIGN_TABLE \/ k = RELKIND_PARTITIONED_TABLE.

(** The statement with another column list. *)
Definition with_keys (stmt : CreateStatsStmt) (cols : list string) : CreateStatsStmt :=
  {| defnames := defnames stmt;
     relation := relation stmt;
     keys := cols;
     options := options stmt;
     if_not_exists := if_not_exists stmt |}.

(** The statement with another option list. *)
Definition with_options (stmt : CreateStatsStmt) (opts : list DefElem) : CreateStatsStmt :=
  {| defnames := defnames stmt;
     relation := relation stmt;
     keys := keys stmt;
     options := opts;
     if_not_exists := if_not_exists stmt |}.

(** The state after one more effect. *)
Definition logged (st : State) (e : Effect) : State :=
  {| pg_statistic_ext := pg_statistic_ext st;
     pg_depend := pg_depend st;
     nextOid := nextOid st;
     effects := effects st ++ [e] |}.

(** The tuple a creation on state [st] stores: the next object
    identifier and both payload columns null. *)
Definition new_statistics (st : State) (relid : Oid) (name : Name) (nsp : Oid)
    (cols : list AttrNumber) (kinds : list StatsKind) : HeapTupleData :=
  {| t_oid := nextOid st;
     t_data := {| stxrelid := relid;
                  stxname := name;
                  stxnamespace := nsp;
                  stxowner := GetUserId;
                  stxkeys := cols;
                  stxkind := kinds;
                  stxndistinct := None;
                  stxdependencies := None |} |}.

Definition table_dependency (statoid relid : Oid) : FormData_pg_depend :=
  {| depender := ObjectAddressSet StatisticExtRelationId statoid;
     referenced := ObjectAddressSet RelationRelationId relid;
     deptype := DEPENDENCY_AUTO |}.

Definition schema_dependency (statoid nsp : Oid) : FormData_pg_depend :=
  {| depender := ObjectAddressSet StatisticExtRelationId statoid;
     referenced := ObjectAddressSet NamespaceRelationId nsp;
     deptype := DEPENDENCY_AUTO |}.

(** The state once [tup] has been stored, the table's cached plans
    invalidated and the two dependencies recorded. *)
Definition with_statistics (st : State) (tup : HeapTupleData) : State :=
  let relid := stxrelid (t_data tup) in
  let nsp := stxnamespace (t_data tup) in
  {| pg_statistic_ext := pg_statistic_ext st ++ [tup];
     pg_depend := pg_depend st
                  ++ [table_dependency (t_oid tup) relid;
                      schema_dependency (t_oid tup) nsp];
     nextOid := nextOid st + 1;
     effects := effects st
                ++ [Eff_CatalogTupleInsert tup;
                    Eff_CacheInvalidateRelcache relid;
                    Eff_recordDependencyOn (table_dependency (t_oid tup) relid);
                    Eff_recordDependencyOn (schema_dependency (t_oid tup) nsp)] |}.

(** The option name is one the option loop knows. *)
Definition option_recognized (opt : DefElem) : bool :=
  String.eqb (defname opt) "ndistinct" || String.eqb (defname opt) "dependencies".

(** The value given by the last option of a list that carries the name,
    if there is one. *)
Fixpoint last_value (name : string) (opts : list DefElem) : option bool :=
  match opts with
  | [] => None
  | opt :: opts' =>
      match last_value name opts' with
      | Some v => Some v
      | None => if String.eqb (defname opt) name then Some (defarg opt) else None
      end
  end.

(** The (name, schema) pairs of the statistics objects of a state. *)
Definition statistics_names (st : State) : list (Name * Oid) :=
  map (fun tup => (stxname (t_data tup), stxnamespace (t_data tup)))
      (pg_statistic_ext st).

(** ** Sorting the attribute numbers *)

Lemma wrap_32_id (x : Z) :
  - 2147483648 <= x <= 2147483647 -> wrap 32 x = x.
Proof.
  intros Hx. unfold wrap.
  change (2 ^ (32 - 1)) with 2147483648.
  change (2 ^ 32) with 4294967296.
  rewrite Z.mod_small; lia.
Qed.

(** The comment in [compare_int16]: the difference cannot overflow. *)
Lemma compare_int16_no_overflow (a b : Z) :
  int16_range a -> int16_range b -> compare_int16 a b = a - b.
Proof.
  unfold int16_range, INT16_MIN, INT16_MAX, compare_int16.
  intros Ha Hb. apply wrap_32_id. lia.
Qed.

Lemma compare_int16_le (a b : Z) :
  int16_range a -> int16_range b ->
  (compare_int16 a b <=? 0) = (a <=? b).
Proof.
  intros Ha Hb. rewrite compare_int16_no_overflow by assumption.
  destruct (Z.leb_spec (a - b) 0), (Z.leb_spec a b); trivial; lia.
Qed.

Lemma qsort_insert_Permutation (cmp : Z -> Z -> Z) (x : Z) (l : list Z) :
  Permutation (x :: l) (qsort_insert cmp x l).
Proof.
  induction l as [|y l IH]; simpl.
  - apply Permutation_refl.
  - destruct (cmp x y <=? 0).
    + apply Permutation_refl.
    + eapply perm_trans; [apply perm_swap|]. now apply perm_skip.
Qed.

Lemma qsort_Permutation (cmp : Z -> Z -> Z) (l : list Z) :
  Permutation l (qsort cmp l).
Proof.
  induction l as [|x l IH]; simpl.
  - apply perm_nil.
  - eapply perm_trans; [apply perm_skip, IH|]. apply qsort_insert_Permutation.
Qed.

Lemma qsort_insert_StronglySorted (x : Z) (l : list Z) :
  int16_range x -> Forall int16_range l ->
  StronglySorted Z.le l ->
  StronglySorted Z.le (qsort_insert compare_int16 x l).
Proof.
  intros Hx Hl Hs. induction Hs as [|y l Hs IH Hy]; simpl.
  - repeat constructor.
  - inversion Hl as [|? ? Hry Hrl]; subst.
    rewrite compare_int16_le by assumption.
    destruct (Z.leb_spec x y) as [Hxy|Hxy].
    + constructor.
      * now constructor.
      * constructor; [assumption|].
        eapply Forall_impl; [|exact Hy]. intros z Hz. simpl in Hz. lia.
    + constructor.
      * now apply IH.
      * apply Forall_forall. intros z Hz.
        apply (Permutation_in z (Permutation_sym (qsort_insert_Permutation _ x l))) in Hz.
        destruct Hz as [<-|Hz]; [lia|].
        rewrite Forall_forall in Hy. now apply Hy.
Qed.

Lemma qsort_StronglySorted (l : list Z) :
  Forall int16_range l -> StronglySorted Z.le (qsort compare_int16 l).
Proof.
  induction 1 as [|x l Hx Hl IH]; simpl.
  - constructor.
  - apply qsort_insert_StronglySorted; trivial.
    eapply Permutation_Forall; [apply qsort_Permutation|assumption].
Qed.

(** An ascending arrangement of given numbers is unique. *)
Lemma StronglySorted_Permutation_eq (l1 l2 : list Z) :
  StronglySorted Z.le l1 -> StronglySorted Z.le l2 ->
  Permutation l1 l2 -> l1 = l2.
Proof.
  intros H1. revert l2.
  induction H1 as [|a l1 H1 IH Ha]; intros l2 H2 Hp.
  - apply Permutation_nil in Hp. now subst.
  - destruct H2 as [|b l2 H2 Hb].
    + apply Permutation_sym, Permutation_nil in Hp. discriminate.
    + assert (a = b) as ->.
      { assert (In a (b :: l2)) as Hab
          by (eapply Permutation_in; [exact Hp|now left]).
        assert (In b (a :: l1)) as Hba
          by (eapply Permutation_in; [apply Permutation_sym, Hp|now left]).
        rewrite Forall_forall in Ha, Hb.
        destruct Hab as [Hab|Hab]; [now subst|].
        destruct Hba as [Hba|Hba]; [now subst|].
        apply Hb in Hab. apply Ha in Hba. lia. }
      f_equal. apply IH; [assumption|].
      now apply Permutation_cons_inv in Hp.
Qed.

(** On an ascending array the scan of consecutive entries finds every
    repetition. *)
Lemma has_adjacent_duplicate_NoDup (l : list Z) :
  StronglySorted Z.le l ->
  has_adjacent_duplicate l = false -> StronglySorted Z.lt l.
Proof.
  induction 1 as [|a l Hs IH Ha]; intros Hd.
  - constructor.
  - destruct l as [|b l]; [repeat constructor|].
    simpl in Hd. destruct (Z.eqb_spec b a) as [|Hne]; [discriminate|].
    specialize (IH Hd).
    constructor; [assumption|].
    inversion Ha as [|? ? Hab Hal]; subst.
    constructor; [lia|].
    apply StronglySorted_inv in IH. destruct IH as [_ Hb].
    eapply Forall_impl; [|exact Hb]. intros z Hz. simpl in Hz. lia.
Qed.

Lemma StronglySorted_lt_NoDup (l : list Z) :
  StronglySorted Z.lt l -> NoDup l.
Proof.
  induction 1 as [|a l Hs IH Ha]; constructor; [|assumption].
  intros Hin. rewrite Forall_forall in Ha. apply Ha in Hin. lia.
Qed.

Lemma NoDup_has_adjacent_duplicate (l : list Z) :
  NoDup l -> has_adjacent_duplicate l = false.
Proof.
  induction 1 as [|a l Ha Hl IH]; [reflexivity|].
  destruct l as [|b l]; [reflexivity|].
  simpl. destruct (Z.eqb_spec b a) as [->|_]; [|exact IH].
  exfalso. apply Ha. now left.
Qed.

(** ** The two loops *)

(** [attnum] is an [int16] column of [pg_attribute]. *)
Hypothesis attnum_int16 :
  forall relid attname attForm,
    SearchSysCacheAttName relid attname = Some attForm ->
    int16_range (attnum attForm).

Lemma column_attnum_int16 (relid : Oid) (attname : string) :
  int16_range (column_attnum relid attname).
Proof.
  unfold column_attnum.
  destruct (SearchSysCacheAttName relid attname) eqn:E.
  - eapply attnum_int16; eassumption.
  - unfold int16_range, INT16_MIN, INT16_MAX. lia.
Qed.

Lemma keys_loop_step (relid : Oid) (attname : string) (l : list string)
    (attnums : list AttrNumber) :
  column_usable relid attname = true ->
  keys_loop relid (attname :: l) attnums =
    if Z.of_nat (List.length attnums) >=? Z.of_nat STATS_MAX_DIMENSIONS
    then Error ERRCODE_TOO_MANY_COLUMNS
    else keys_loop relid l (attnums ++ [column_attnum relid attname]).
Proof.
  unfold column_usable, column_attnum. simpl.
  destruct (SearchSysCacheAttName relid attname) as [attForm|]; [|discriminate].
  intros H. apply andb_true_iff in H. destruct H as [Hsys Hlt].
  destruct (Z.ltb_spec (attnum attForm) 0) as [Hneg|_].
  - apply Z.leb_le in Hsys. lia.
  - apply negb_true_iff in Hlt. rewrite Hlt. reflexivity.
Qed.

(** Within the bound, usable names are resolved in input order. *)
Lemma keys_loop_usable (relid : Oid) (l : list string) :
  forall attnums : list AttrNumber,
    Forall (fun attname => column_usable relid attname = true) l ->
    (List.length attnums + List.length l <= STATS_MAX_DIMENSIONS)%nat ->
    keys_loop relid l attnums = Ok (attnums ++ map (column_attnum relid) l).
Proof.
  induction l as [|attname l IH]; intros attnums Hl Hlen.
  - simpl. now rewrite app_nil_r.
  - inversion Hl as [|? ? Hu Hl']; subst. simpl in Hlen.
    rewrite keys_loop_step by assumption.
    rewrite Z.geb_leb.
    destruct (Z.leb_spec (Z.of_nat STATS_MAX_DIMENSIONS)
                         (Z.of_nat (List.length attnums))) as [Hge|_]; [lia|].
    rewrite IH; trivial.
    + now rewrite <- app_assoc.
    + rewrite length_app. simpl. lia.
Qed.

(** One usable name beyond the bound ends the loop. *)
Lemma keys_loop_too_many (relid : Oid) (l : list string) :
  forall attnums : list AttrNumber,
    (List.length attnums <= STATS_MAX_DIMENSIONS)%nat ->
    (STATS_MAX_DIMENSIONS < List.length attnums + List.length l)%nat ->
    Forall (fun attname => column_usable relid attname = true)
           (firstn (S STATS_MAX_DIMENSIONS - List.length attnums) l) ->
    keys_loop relid l attnums = Error ERRCODE_TOO_MANY_COLUMNS.
Proof.
  induction l as [|attname l IH]; intros attnums Hacc Hlen Hl.
  - simpl in Hlen. lia.
  - replace (S STATS_MAX_DIMENSIONS - List.length attnums)%nat
      with (S (STATS_MAX_DIMENSIONS - List.length attnums)) in Hl by lia.
    simpl in Hl. inversion Hl as [|? ? Hu Hl']; subst.
    rewrite keys_loop_step by assumption.
    rewrite Z.geb_leb.
    destruct (Z.leb_spec (Z.of_nat STATS_MAX_DIMENSIONS)
                         (Z.of_nat (List.length attnums))) as [_|Hlt]; [reflexivity|].
    simpl in Hlen. apply IH.
    + rewrite length_app. simpl. lia.
    + rewrite length_app. simpl. lia.
    + rewrite length_app. cbn [List.length].
      replace (S STATS_MAX_DIMENSIONS - (List.length attnums + 1))%nat
        with (STATS_MAX_DIMENSIONS - List.length attnums)%nat by lia.
      assumption.
Qed.

(** The option loop only ever sets [requested_type]. *)
Lemma options_loop_requested (l : list DefElem) :
  forall bn bd req bn' bd' req',
    options_loop l bn bd req = Ok (bn', bd', req') ->
    req' = req || negb (Nat.eqb (List.length l) 0).
Proof.
  induction l as [|opt l IH]; intros bn bd req bn' bd' req' H; simpl in H.
  - inversion H. now rewrite orb_false_r.
  - destruct (String.eqb (defname opt) "ndistinct").
    + apply IH in H. subst. simpl. now rewrite orb_true_r.
    + destruct (String.eqb (defname opt) "dependencies"); [|discriminate].
      apply IH in H. subst. simpl. now rewrite orb_true_r.
Qed.

Lemma enabled_types_ntypes (bn bd : bool) :
  enabled_types bn bd <> [] ->
  (Z.of_nat (List.length (enabled_types bn bd)) >? 0)
  && (Z.of_nat (List.length (enabled_types bn bd)) <=? 2) = true.
Proof. destruct bn, bd; simpl; intros H; trivial. now elim H. Qed.

(** ** Paths through [CreateStatistics] *)

Lemma relkind_has_statistics_test (k : relkind) :
  relkind_has_statistics k ->
  negb (relkind_eqb k RELKIND_RELATION)
  && negb (relkind_eqb k RELKIND_MATVIEW)
  && negb (relkind_eqb k RELKIND_FOREIGN_TABLE)
  && negb (relkind_eqb k RELKIND_PARTITIONED_TABLE) = false.
Proof. intros [-> | [-> | [-> | ->]]]; reflexivity. Qed.

(** The name is taken: nothing else of the statement is looked at. *)
Lemma CreateStatistics_name_exists (stmt : CreateStatsStmt) (st : State)
    (nsp : Oid) (namestr : string) :
  QualifiedNameGetCreationNamespace (defnames stmt) = Ok (nsp, namestr) ->
  SearchSysCacheExists2_STATEXTNAMENSP (namestrcpy namestr) nsp st = Ok (true, st) ->
  CreateStatistics stmt st =
    if if_not_exists stmt
    then Ok (InvalidObjectAddress, logged st (Eff_ereport_NOTICE ERRCODE_DUPLICATE_OBJECT))
    else Error ERRCODE_DUPLICATE_OBJECT.
Proof.
  intros Hname Hfound. unfold CreateStatistics, bind, lift.
  rewrite Hname, Hfound.
  destruct (if_not_exists stmt); reflexivity.
Qed.

(** The name is free and the table is of an accepted kind: the outcome
    is that of the column loop when it fails. *)
Lemma CreateStatistics_keys_error (stmt : CreateStatsStmt) (st : State)
    (nsp : Oid) (namestr : string) (rel : RelationData) (e : sqlstate) :
  QualifiedNameGetCreationNamespace (defnames stmt) = Ok (nsp, namestr) ->
  SearchSysCacheExists2_STATEXTNAMENSP (namestrcpy namestr) nsp st = Ok (false, st) ->
  relation_openrv (relation stmt) = Ok rel ->
  relkind_has_statistics (rd_relkind rel) ->
  keys_loop (rd_id rel) (keys stmt) [] = Error e ->
  CreateStatistics stmt st = Error e.
Proof.
  intros Hname Hfree Hrel Hkind Hkeys. unfold CreateStatistics, bind, lift.
  rewrite Hname, Hfree, Hrel.
  rewrite (relkind_has_statistics_test _ Hkind).
  unfold RelationGetRelid. rewrite Hkeys. reflexivity.
Qed.

(** The columns are resolved: what remains is the arity test, the
    sort and the scan for repetitions, the options, the assertion and
    the writes, in this order. *)
Lemma CreateStatistics_resolved (stmt : CreateStatsStmt) (st : State)
    (nsp : Oid) (namestr : string) (rel : RelationData)
    (attnums : list AttrNumber) :
  QualifiedNameGetCreationNamespace (defnames stmt) = Ok (nsp, namestr) ->
  SearchSysCacheExists2_STATEXTNAMENSP (namestrcpy namestr) nsp st = Ok (false, st) ->
  relation_openrv (relation stmt) = Ok rel ->
  relkind_has_statistics (rd_relkind rel) ->
  keys_loop (rd_id rel) (keys stmt) [] = Ok attnums ->
  CreateStatistics stmt st =
    if Z.of_nat (List.length attnums) <? 2
    then Error ERRCODE_INVALID_OBJECT_DEFINITION
    else if has_adjacent_duplicate (qsort compare_int16 attnums)
    then Error ERRCODE_DUPLICATE_COLUMN
    else
      match select_kinds (options stmt) with
      | Ok (bn, bd) =>
          let types := enabled_types bn bd in
          let ntypes := Z.of_nat (List.length types) in
          if USE_ASSERT_CHECKING && negb ((ntypes >? 0) && (ntypes <=? 2))
          then Trap
          else
            let tup := new_statistics st (rd_id rel) (namestrcpy namestr) nsp
                         (qsort compare_int16 attnums) types in
            Ok (ObjectAddressSet StatisticExtRelationId (t_oid tup),
                with_statistics st tup)
      | Error e => Error e
      | Trap => Trap
      end.
Proof.
  intros Hname Hfree Hrel Hkind Hkeys. unfold CreateStatistics, bind, lift.
  rewrite Hname, Hfree, Hrel.
  rewrite (relkind_has_statistics_test _ Hkind).
  unfold RelationGetRelid. rewrite Hkeys.
  destruct (Z.of_nat (List.length attnums) <? 2); [reflexivity|].
  destruct (has_adjacent_duplicate (qsort compare_int16 attnums)); [reflexivity|].
  destruct (select_kinds (options stmt)) as [[bn bd]| |]; try reflexivity.
  unfold Assert.
  destruct (USE_ASSERT_CHECKING && _); [reflexivity|].
  unfold CatalogTupleInsert, CacheInvalidateRelcache, recordDependencyOn, emit, ret,
    with_statistics, new_statistics, table_dependency, schema_dependency,
    HeapTupleGetOid, RelationGetRelid, buildint2vector.
  cbn. rewrite <- !app_assoc. reflexivity.
Qed.

Lemma usable_attnums_int16 (relid : Oid) (l : list string) :
  Forall int16_range (map (column_attnum relid) l).
Proof.
  induction l as [|attname l IH]; simpl; constructor; trivial.
  apply column_attnum_int16.
Qed.

Lemma not_NoDup_length (l : list Z) :
  ~ NoDup l -> (2 <= List.length l)%nat.
Proof.
  destruct l as [|a [|b l]]; simpl; intros H; try lia.
  - elim H. constructor.
  - elim H. constructor; [intros []|constructor].
Qed.

(** A statement whose name is free, whose table is of an accepted
    kind, whose columns are usable, distinct and between 2 and
    [STATS_MAX_DIMENSIONS] in number, and whose options select at least
    one kind (or assertions are off): the whole run. *)
Lemma CreateStatistics_valid_run (stmt : CreateStatsStmt) (st : State)
    (nsp : Oid) (namestr : string) (rel : RelationData) (bn bd : bool) :
  QualifiedNameGetCreationNamespace (defnames stmt) = Ok (nsp, namestr) ->
  SearchSysCacheExists2_STATEXTNAMENSP (namestrcpy namestr) nsp st = Ok (false, st) ->
  relation_openrv (relation stmt) = Ok rel ->
  relkind_has_statistics (rd_relkind rel) ->
  select_kinds (options stmt) = Ok (bn, bd) ->
  (USE_ASSERT_CHECKING = true -> enabled_types bn bd <> []) ->
  (2 <= List.length (keys stmt) <= STATS_MAX_DIMENSIONS)%nat ->
  Forall (fun attname => column_usable (rd_id rel) attname = true) (keys stmt) ->
  NoDup (map (column_attnum (rd_id rel)) (keys stmt)) ->
  let tup := new_statistics st (rd_id rel) (namestrcpy namestr) nsp
               (qsort compare_int16 (map (column_attnum (rd_id rel)) (keys stmt)))
               (enabled_types bn bd) in
  CreateStatistics stmt st =
    Ok (ObjectAddressSet StatisticExtRelationId (t_oid tup), with_statistics st tup).
Proof.
  intros Hname Hfree Hrel Hkind Hopts Hassert Hlen Husable Hdistinct tup.
  assert (keys_loop (rd_id rel) (keys stmt) []
          = Ok (map (column_attnum (rd_id rel)) (keys stmt))) as Hkeys.
  { rewrite keys_loop_usable; trivial. simpl. lia. }
  rewrite (CreateStatistics_resolved _ _ _ _ _ _ Hname Hfree Hrel Hkind Hkeys).
  rewrite length_map.
  destruct (Z.ltb_spec (Z.of_nat (List.length (keys stmt))) 2) as [Hlt|_]; [lia|].
  rewrite NoDup_has_adjacent_duplicate
    by (eapply Permutation_NoDup; [apply qsort_Permutation|assumption]).
  rewrite Hopts. cbv zeta.
  destruct USE_ASSERT_CHECKING; [|reflexivity].
  rewrite enabled_types_ntypes by now apply Hassert.
  reflexivity.
Qed.

(** What a successful return of [CreateStatistics] tells: either the
    skip of an existing name, or a complete creation. *)
Lemma CreateStatistics_Ok_inv (stmt : CreateStatsStmt) (st st' : State)
    (address : ObjectAddress) :
  CreateStatistics stmt st = Ok (address, st') ->
  exists nsp namestr,
    QualifiedNameGetCreationNamespace (defnames stmt) = Ok (nsp, namestr) /\
    ((SearchSysCacheExists2_STATEXTNAMENSP (namestrcpy namestr) nsp st = Ok (true, st)
      /\ if_not_exists stmt = true
      /\ address = InvalidObjectAddress
      /\ st' = logged st (Eff_ereport_NOTICE ERRCODE_DUPLICATE_OBJECT))
     \/
     (SearchSysCacheExists2_STATEXTNAMENSP (namestrcpy namestr) nsp st = Ok (false, st)
      /\ exists rel attnums bn bd,
           relation_openrv (relation stmt) = Ok rel
           /\ keys_loop (rd_id rel) (keys stmt) [] = Ok attnums
           /\ 2 <= Z.of_nat (List.length attnums)
           /\ has_adjacent_duplicate (qsort compare_int16 attnums) = false
           /\ select_kinds (options stmt) = Ok (bn, bd)
           /\ (USE_ASSERT_CHECKING = true -> enabled_types bn bd <> [])
           /\ let tup := new_statistics st (rd_id rel) (namestrcpy namestr) nsp
                           (qsort compare_int16 attnums) (enabled_types bn bd) in
              address = ObjectAddressSet StatisticExtRelationId (t_oid tup)
              /\ st' = with_statistics st tup)).
Proof.
  intros H.
  destruct (QualifiedNameGetCreationNamespace (defnames stmt))
    as [[nsp namestr]| |] eqn:Hname;
    try (unfold CreateStatistics, bind, lift in H; rewrite Hname in H; discriminate).
  exists nsp, namestr. split; [reflexivity|].
  destruct (existsb (fun tup => String.eqb (stxname (t_data tup)) (namestrcpy namestr)
                                && (stxnamespace (t_data tup) =? nsp))
                    (pg_statistic_ext st)) eqn:Hfound.
  - left.
    assert (SearchSysCacheExists2_STATEXTNAMENSP (namestrcpy namestr) nsp st
            = Ok (true, st)) as Hex
      by (unfold SearchSysCacheExists2_STATEXTNAMENSP, gets; now rewrite Hfound).
    rewrite (CreateStatistics_name_exists _ _ _ _ Hname Hex) in H.
    destruct (if_not_exists stmt); [|discriminate].
    inversion H. auto.
  - right.
    assert (SearchSysCacheExists2_STATEXTNAMENSP (namestrcpy namestr) nsp st
            = Ok (false, st)) as Hex
      by (unfold SearchSysCacheExists2_STATEXTNAMENSP, gets; now rewrite Hfound).
    split; [exact Hex|].
    destruct (relation_openrv (relation stmt)) as [rel| |] eqn:Hrel;
      try (unfold CreateStatistics, bind, lift in H;
           rewrite Hname, Hex, Hrel in H; discriminate).
    assert (relkind_has_statistics (rd_relkind rel)) as Hkind.
    { unfold CreateStatistics, bind, lift in H. rewrite Hname, Hex, Hrel in H.
      unfold relkind_has_statistics.
      destruct (rd_relkind rel); auto; discriminate. }
    destruct (keys_loop (rd_id rel) (keys stmt) []) as [attnums| |] eqn:Hkeys;
      try (unfold CreateStatistics, bind, lift in H;
           rewrite Hname, Hex, Hrel in H;
           rewrite (relkind_has_statistics_test _ Hkind) in H;
           unfold RelationGetRelid in H; rewrite Hkeys in H; discriminate).
    rewrite (CreateStatistics_resolved _ _ _ _ _ _ Hname Hex Hrel Hkind Hkeys) in H.
    destruct (Z.ltb_spec (Z.of_nat (List.length attnums)) 2) as [|Hlen]; [discriminate|].
    destruct (has_adjacent_duplicate (qsort compare_int16 attnums)) eqn:Hdup;
      [discriminate|].
    destruct (select_kinds (options stmt)) as [[bn bd]| |] eqn:Hopts; try discriminate.
    cbv zeta in H.
    exists rel, attnums, bn, bd.
    do 5 (split; [trivial|]). split.
    + intros Hassert Hnil. rewrite Hassert, Hnil in H. discriminate.
    + destruct (USE_ASSERT_CHECKING && _); [discriminate|].
      inversion H. auto.
Qed.

(** *** Removal of a tuple *)

Lemma heap_remove_found (statsOid : Oid) (rows : list HeapTupleData)
    (tup : HeapTupleData) :
  find (fun tup => t_oid tup =? statsOid) rows = Some tup ->
  t_oid tup = statsOid /\ Permutation rows (tup :: heap_remove statsOid rows).
Proof.
  induction rows as [|row rows IH]; simpl; [discriminate|].
  destruct (Z.eqb_spec (t_oid row) statsOid) as [Heq|Hne]; intros H.
  - inversion H; subst. split; [reflexivity|apply Permutation_refl].
  - destruct (IH H) as [Hoid Hperm]. split; [assumption|].
    eapply perm_trans; [apply perm_skip, Hperm|apply perm_swap].
Qed.

Lemma heap_remove_gone (statsOid : Oid) (rows : list HeapTupleData) :
  NoDup (map t_oid rows) ->
  find (fun tup => t_oid tup =? statsOid) (heap_remove statsOid rows) = None.
Proof.
  induction rows as [|row rows IH]; simpl; [reflexivity|].
  intros Hnd. inversion Hnd as [|? ? Hnotin Hnd']; subst.
  destruct (Z.eqb_spec (t_oid row) statsOid) as [Heq|Hne].
  - destruct (find (fun tup => t_oid tup =? statsOid) rows) as [tup|] eqn:E; trivial.
    apply find_some in E. destruct E as [Hin Hoid].
    apply Z.eqb_eq in Hoid. elim Hnotin. rewrite Heq, <- Hoid.
    now apply in_map.
  - simpl. destruct (Z.eqb_spec (t_oid row) statsOid); [contradiction|].
    now apply IH.
Qed.

(** ** Properties of the specification *)

(** C1. A statement whose column names, between 2 and
    [STATS_MAX_DIMENSIONS] of them, resolve to distinct attributes that
    are not system attributes and whose types have a less-than operator
    is carried out (the name being free, the table of an accepted kind
    and the options accepted): the stored column list is the ascending
    arrangement of the attribute numbers of the input, both payload
    columns are null, and any reordering of the input columns gives the
    same outcome. *)
Theorem CreateStatistics_valid_columns (stmt : CreateStatsStmt) (st : State)
    (nsp : Oid) (namestr : string) (rel : RelationData) (bn bd : bool) :
  QualifiedNameGetCreationNamespace (defnames stmt) = Ok (nsp, namestr) ->
  SearchSysCacheExists2_STATEXTNAMENSP (namestrcpy namestr) nsp st = Ok (false, st) ->
  relation_openrv (relation stmt) = Ok rel ->
  relkind_has_statistics (rd_relkind rel) ->
  select_kinds (options stmt) = Ok (bn, bd) ->
  (USE_ASSERT_CHECKING = true -> enabled_types bn bd <> []) ->
  (2 <= List.length (keys stmt) <= STATS_MAX_DIMENSIONS)%nat ->
  Forall (fun attname => column_usable (rd_id rel) attname = true) (keys stmt) ->
  NoDup (map (column_attnum (rd_id rel)) (keys stmt)) ->
  exists tup st',
    CreateStatistics stmt st
      = Ok (ObjectAddressSet StatisticExtRelationId (t_oid tup), st')
    /\ pg_statistic_ext st' = pg_statistic_ext st ++ [tup]
    /\ Permutation (map (column_attnum (rd_id rel)) (keys stmt)) (stxkeys (t_data tup))
    /\ StronglySorted Z.lt (stxkeys (t_data tup))
    /\ stxndistinct (t_data tup) = None
    /\ stxdependencies (t_data tup) = None
    /\ forall cols,
         Permutation (keys stmt) cols ->
         CreateStatistics (with_keys stmt cols) st = CreateStatistics stmt st.
Proof.
  intros Hname Hfree Hrel Hkind Hopts Hassert Hlen Husable Hdistinct.
  pose proof (CreateStatistics_valid_run stmt st nsp namestr rel bn bd
                Hname Hfree Hrel Hkind Hopts Hassert Hlen Husable Hdistinct) as Hrun.
  cbv zeta in Hrun.
  pose proof (qsort_StronglySorted _ (usable_attnums_int16 (rd_id rel) (keys stmt)))
    as Hsorted.
  eexists. eexists. split; [exact Hrun|].
  split; [reflexivity|]. split; [apply qsort_Permutation|].
  split.
  { apply has_adjacent_duplicate_NoDup; [assumption|].
    apply NoDup_has_adjacent_duplicate.
    eapply Permutation_NoDup; [apply qsort_Permutation|assumption]. }
  split; [reflexivity|]. split; [reflexivity|].
  intros cols Hperm.
  assert (Permutation (map (column_attnum (rd_id rel)) (keys stmt))
                      (map (column_attnum (rd_id rel)) cols)) as Hperm'
    by now apply Permutation_map.
  rewrite Hrun.
  rewrite (CreateStatistics_valid_run (with_keys stmt cols) st nsp namestr rel bn bd);
    simpl; trivial.
  - cbv zeta.
    replace (qsort compare_int16 (map (column_attnum (rd_id rel)) cols))
      with (qsort compare_int16 (map (column_attnum (rd_id rel)) (keys stmt)));
      [reflexivity|].
    apply StronglySorted_Permutation_eq; trivial.
    + apply qsort_StronglySorted, usable_attnums_int16.
    + eapply perm_trans; [apply Permutation_sym, qsort_Permutation|].
      eapply perm_trans; [exact Hperm'|apply qsort_Permutation].
  - rewrite <- (Permutation_length Hperm). exact Hlen.
  - eapply Permutation_Forall; eassumption.
  - eapply Permutation_NoDup; eassumption.
Qed.

(** C2. When the (name, schema) pair already names a statistics
    object: without [if_not_exists] the command fails with
    [ERRCODE_DUPLICATE_OBJECT]; with it the command returns normally,
    having reported a notice and changed neither [pg_statistic_ext] nor
    [pg_depend] nor the identifier counter. *)
Theorem CreateStatistics_duplicate_name (stmt : CreateStatsStmt) (st : State)
    (nsp : Oid) (namestr : string) :
  QualifiedNameGetCreationNamespace (defnames stmt) = Ok (nsp, namestr) ->
  SearchSysCacheExists2_STATEXTNAMENSP (namestrcpy namestr) nsp st = Ok (true, st) ->
  (if_not_exists stmt = false ->
     CreateStatistics stmt st = Error ERRCODE_DUPLICATE_OBJECT)
  /\
  (if_not_exists stmt = true ->
     exists address st',
       CreateStatistics stmt st = Ok (address, st')
       /\ pg_statistic_ext st' = pg_statistic_ext st
       /\ pg_depend st' = pg_depend st
       /\ nextOid st' = nextOid st
       /\ effects st' = effects st ++ [Eff_ereport_NOTICE ERRCODE_DUPLICATE_OBJECT]).
Proof.
  intros Hname Hfound.
  rewrite (CreateStatistics_name_exists _ _ _ _ Hname Hfound).
  split; intros ->; [reflexivity|].
  eexists. eexists. split; [reflexivity|]. simpl. auto.
Qed.

(** C9. When the name already exists and [if_not_exists] is set, the
    address returned is [InvalidObjectAddress], all of whose fields are
    zero, which is not the address of any statistics object in the
    catalog. *)
Theorem CreateStatistics_skip_address (stmt : CreateStatsStmt) (st : State)
    (nsp : Oid) (namestr : string) :
  QualifiedNameGetCreationNamespace (defnames stmt) = Ok (nsp, namestr) ->
  SearchSysCacheExists2_STATEXTNAMENSP (namestrcpy namestr) nsp st = Ok (true, st) ->
  if_not_exists stmt = true ->
  StatisticExtRelationId <> InvalidOid ->
  exists address st',
    CreateStatistics stmt st = Ok (address, st')
    /\ address = InvalidObjectAddress
    /\ classId address = 0 /\ objectId address = 0 /\ objectSubId address = 0
    /\ forall tup,
         In tup (pg_statistic_ext st) ->
         address <> ObjectAddressSet StatisticExtRelationId (HeapTupleGetOid tup).
Proof.
  intros Hname Hfound Hskip Hclass.
  rewrite (CreateStatistics_name_exists _ _ _ _ Hname Hfound), Hskip.
  eexists. eexists. split; [reflexivity|].
  repeat (split; [reflexivity|]).
  intros tup _ Heq. apply Hclass.
  apply (f_equal classId) in Heq. simpl in Heq. now symmetry.
Qed.

(** C4. With no option both kinds are requested; with only
    [dependencies = true] exactly the dependencies kind is; and as soon
    as one recognized option is given, whatever its value, a type counts
    as requested and the kinds are the flags the option loop left, not
    the default: [ndistinct = false] alone, or [dependencies = false]
    alone, leaves both flags off. *)
Theorem select_kinds_policy :
  (select_kinds [] = Ok (true, true)
   /\ enabled_types true true = [STATS_EXT_NDISTINCT; STATS_EXT_DEPENDENCIES])
  /\
  (select_kinds [{| defname := "dependencies"; defarg := true |}] = Ok (false, true)
   /\ enabled_types false true = [STATS_EXT_DEPENDENCIES])
  /\
  (forall opts bn bd req,
     opts <> [] ->
     options_loop opts false false false = Ok (bn, bd, req) ->
     req = true /\ select_kinds opts = Ok (bn, bd))
  /\
  (forall name,
     name = "ndistinct"%string \/ name = "dependencies"%string ->
     select_kinds [{| defname := name; defarg := false |}] = Ok (false, false)).
Proof.
  split; [split; reflexivity|].
  split; [split; reflexivity|].
  split.
  - intros opts bn bd req Hne Hloop.
    pose proof (options_loop_requested _ _ _ _ _ _ _ Hloop) as Hreq.
    destruct opts as [|opt opts]; [now elim Hne|].
    simpl in Hreq. subst req.
    split; [reflexivity|].
    unfold select_kinds. rewrite Hloop. reflexivity.
  - intros name [-> | ->]; reflexivity.
Qed.

Lemma Forall_firstn_of {A : Type} (P : A -> Prop) (n : nat) (l : list A) :
  Forall P l -> Forall P (firstn n l).
Proof.
  intros H. rewrite <- (firstn_skipn n l) in H.
  apply Forall_app in H. apply H.
Qed.

(** More names than the array holds, the first [STATS_MAX_DIMENSIONS + 1]
    of them usable: the loop stops at the bound. *)
Lemma CreateStatistics_too_many (stmt : CreateStatsStmt) (st : State)
    (nsp : Oid) (namestr : string) (rel : RelationData) :
  QualifiedNameGetCreationNamespace (defnames stmt) = Ok (nsp, namestr) ->
  SearchSysCacheExists2_STATEXTNAMENSP (namestrcpy namestr) nsp st = Ok (false, st) ->
  relation_openrv (relation stmt) = Ok rel ->
  relkind_has_statistics (rd_relkind rel) ->
  (STATS_MAX_DIMENSIONS < List.length (keys stmt))%nat ->
  Forall (fun attname => column_usable (rd_id rel) attname = true)
         (firstn (S STATS_MAX_DIMENSIONS) (keys stmt)) ->
  keys_loop (rd_id rel) (keys stmt) [] = Error ERRCODE_TOO_MANY_COLUMNS
  /\ CreateStatistics stmt st = Error ERRCODE_TOO_MANY_COLUMNS.
Proof.
  intros Hname Hfree Hrel Hkind Hlen Husable.
  assert (keys_loop (rd_id rel) (keys stmt) [] = Error ERRCODE_TOO_MANY_COLUMNS)
    as Hkeys.
  { apply keys_loop_too_many; [simpl; lia|simpl; lia|exact Husable]. }
  split; [exact Hkeys|].
  eapply CreateStatistics_keys_error; eassumption.
Qed.

(** C5, as amended.  Once the column names are resolved (the name being
    free and the table of an accepted kind): fewer than 2 columns fail
    with [ERRCODE_INVALID_OBJECT_DEFINITION]; more than
    [STATS_MAX_DIMENSIONS] fail with [ERRCODE_TOO_MANY_COLUMNS]; and a
    list of at most [STATS_MAX_DIMENSIONS] columns in which a column
    occurs twice fails with [ERRCODE_DUPLICATE_COLUMN], in whatever
    order its columns are given. *)
Theorem CreateStatistics_arity_and_duplicates (stmt : CreateStatsStmt) (st : State)
    (nsp : Oid) (namestr : string) (rel : RelationData) :
  QualifiedNameGetCreationNamespace (defnames stmt) = Ok (nsp, namestr) ->
  SearchSysCacheExists2_STATEXTNAMENSP (namestrcpy namestr) nsp st = Ok (false, st) ->
  relation_openrv (relation stmt) = Ok rel ->
  relkind_has_statistics (rd_relkind rel) ->
  (2 <= STATS_MAX_DIMENSIONS)%nat ->
  Forall (fun attname => column_usable (rd_id rel) attname = true) (keys stmt) ->
  ((List.length (keys stmt) < 2)%nat ->
     CreateStatistics stmt st = Error ERRCODE_INVALID_OBJECT_DEFINITION)
  /\
  ((STATS_MAX_DIMENSIONS < List.length (keys stmt))%nat ->
     CreateStatistics stmt st = Error ERRCODE_TOO_MANY_COLUMNS)
  /\
  ((List.length (keys stmt) <= STATS_MAX_DIMENSIONS)%nat ->
   ~ NoDup (map (column_attnum (rd_id rel)) (keys stmt)) ->
   forall cols,
     Permutation (keys stmt) cols ->
     CreateStatistics (with_keys stmt cols) st = Error ERRCODE_DUPLICATE_COLUMN).
Proof.
  intros Hname Hfree Hrel Hkind Hmax Husable.
  split; [|split].
  - intros Hlen.
    assert (keys_loop (rd_id rel) (keys stmt) []
            = Ok (map (column_attnum (rd_id rel)) (keys stmt))) as Hkeys
      by (rewrite keys_loop_usable; trivial; simpl; lia).
    rewrite (CreateStatistics_resolved _ _ _ _ _ _ Hname Hfree Hrel Hkind Hkeys).
    rewrite length_map.
    destruct (Z.ltb_spec (Z.of_nat (List.length (keys stmt))) 2); [reflexivity|lia].
  - intros Hlen.
    apply (CreateStatistics_too_many stmt st nsp namestr rel); trivial.
    now apply Forall_firstn_of.
  - intros Hlen Hdup cols Hperm.
    assert (keys_loop (rd_id rel) (keys (with_keys stmt cols)) []
            = Ok (map (column_attnum (rd_id rel)) cols)) as Hkeys.
    { simpl. rewrite keys_loop_usable; trivial.
      - eapply Permutation_Forall; eassumption.
      - simpl. rewrite <- (Permutation_length Hperm). exact Hlen. }
    rewrite (CreateStatistics_resolved (with_keys stmt cols) st nsp namestr rel _
               Hname Hfree Hrel Hkind Hkeys).
    assert (~ NoDup (map (column_attnum (rd_id rel)) cols)) as Hdup'.
    { intros Hnd. apply Hdup.
      eapply Permutation_NoDup; [|exact Hnd].
      apply Permutation_sym, Permutation_map, Hperm. }
    pose proof (not_NoDup_length _ Hdup') as Htwo.
    rewrite length_map in Htwo. rewrite length_map.
    destruct (Z.ltb_spec (Z.of_nat (List.length cols)) 2); [lia|].
    destruct (has_adjacent_duplicate
                (qsort compare_int16 (map (column_attnum (rd_id rel)) cols))) eqn:Hscan;
      [reflexivity|].
    elim Hdup'.
    eapply Permutation_NoDup; [apply Permutation_sym, qsort_Permutation|].
    apply StronglySorted_lt_NoDup, has_adjacent_duplicate_NoDup; [|exact Hscan].
    apply qsort_StronglySorted, usable_attnums_int16.
Qed.

(** C10. When the list is longer than [STATS_MAX_DIMENSIONS] and its
    first [STATS_MAX_DIMENSIONS + 1] names are usable, the column loop
    itself ends with [ERRCODE_TOO_MANY_COLUMNS], and so does the
    command, whether or not the list repeats a column: the sort and the
    scan for repetitions come after the loop. *)
Theorem CreateStatistics_too_many_before_duplicates (stmt : CreateStatsStmt)
    (st : State) (nsp : Oid) (namestr : string) (rel : RelationData) :
  QualifiedNameGetCreationNamespace (defnames stmt) = Ok (nsp, namestr) ->
  SearchSysCacheExists2_STATEXTNAMENSP (namestrcpy namestr) nsp st = Ok (false, st) ->
  relation_openrv (relation stmt) = Ok rel ->
  relkind_has_statistics (rd_relkind rel) ->
  (STATS_MAX_DIMENSIONS < List.length (keys stmt))%nat ->
  Forall (fun attname => column_usable (rd_id rel) attname = true)
         (firstn (S STATS_MAX_DIMENSIONS) (keys stmt)) ->
  keys_loop (rd_id rel) (keys stmt) [] = Error ERRCODE_TOO_MANY_COLUMNS
  /\ CreateStatistics stmt st = Error ERRCODE_TOO_MANY_COLUMNS
  /\ (~ NoDup (keys stmt) ->
      CreateStatistics stmt st <> Error ERRCODE_DUPLICATE_COLUMN).
Proof.
  intros Hname Hfree Hrel Hkind Hlen Husable.
  destruct (CreateStatistics_too_many stmt st nsp namestr rel
              Hname Hfree Hrel Hkind Hlen Husable) as [Hkeys Hrun].
  split; [exact Hkeys|]. split; [exact Hrun|].
  intros _. rewrite Hrun. discriminate.
Qed.

(** C6, as amended.  The name-uniqueness check comes first, before
    the table is opened and any column resolved: with a name that is
    taken the outcome is the duplicate-name one whatever the columns
    and options.  With a free name come, in this order, the column
    loop (its failure is reported whatever the options), the arity test
    and the scan for repetitions (theirs too), the options, and on
    success the effects: insertion of the tuple, invalidation for the
    table, dependency on the table, dependency on the schema. *)
Theorem CreateStatistics_step_order (stmt : CreateStatsStmt) (st : State)
    (nsp : Oid) (namestr : string) :
  QualifiedNameGetCreationNamespace (defnames stmt) = Ok (nsp, namestr) ->
  (SearchSysCacheExists2_STATEXTNAMENSP (namestrcpy namestr) nsp st = Ok (true, st) ->
   forall cols opts,
     CreateStatistics (with_options (with_keys stmt cols) opts) st =
       if if_not_exists stmt
       then Ok (InvalidObjectAddress,
                logged st (Eff_ereport_NOTICE ERRCODE_DUPLICATE_OBJECT))
       else Error ERRCODE_DUPLICATE_OBJECT)
  /\
  (SearchSysCacheExists2_STATEXTNAMENSP (namestrcpy namestr) nsp st = Ok (false, st) ->
   forall rel,
     relation_openrv (relation stmt) = Ok rel ->
     relkind_has_statistics (rd_relkind rel) ->
     (forall e,
        keys_loop (rd_id rel) (keys stmt) [] = Error e ->
        forall opts, CreateStatistics (with_options stmt opts) st = Error e)
     /\
     (forall attnums,
        keys_loop (rd_id rel) (keys stmt) [] = Ok attnums ->
        (Z.of_nat (List.length attnums) < 2 ->
         forall opts,
           CreateStatistics (with_options stmt opts) st
             = Error ERRCODE_INVALID_OBJECT_DEFINITION)
        /\
        (2 <= Z.of_nat (List.length attnums) ->
         has_adjacent_duplicate (qsort compare_int16 attnums) = true ->
         forall opts,
           CreateStatistics (with_options stmt opts) st
             = Error ERRCODE_DUPLICATE_COLUMN)
        /\
        (2 <= Z.of_nat (List.length attnums) ->
         has_adjacent_duplicate (qsort compare_int16 attnums) = false ->
         (forall e,
            select_kinds (options stmt) = Error e ->
            CreateStatistics stmt st = Error e)
         /\
         (forall address st',
            CreateStatistics stmt st = Ok (address, st') ->
            exists tup,
              address = ObjectAddressSet StatisticExtRelationId (t_oid tup)
              /\ effects st' =
                   effects st
                   ++ [Eff_CatalogTupleInsert tup;
                       Eff_CacheInvalidateRelcache (rd_id rel);
                       Eff_recordDependencyOn
                         (table_dependency (t_oid tup) (rd_id rel));
                       Eff_recordDependencyOn
                         (schema_dependency (t_oid tup) nsp)])))).
Proof.
  intros Hname. split.
  - intros Hfound cols opts.
    now rewrite (CreateStatistics_name_exists _ st nsp namestr).
  - intros Hfree rel Hrel Hkind. split.
    + intros e Hkeys opts.
      now apply (CreateStatistics_keys_error _ st nsp namestr rel).
    + intros attnums Hkeys. split; [|split].
      * intros Hlen opts.
        rewrite (CreateStatistics_resolved (with_options stmt opts) st nsp namestr
                   rel attnums); trivial.
        destruct (Z.ltb_spec (Z.of_nat (List.length attnums)) 2); [reflexivity|lia].
      * intros Hlen Hdup opts.
        rewrite (CreateStatistics_resolved (with_options stmt opts) st nsp namestr
                   rel attnums); trivial.
        destruct (Z.ltb_spec (Z.of_nat (List.length attnums)) 2); [lia|].
        now rewrite Hdup.
      * intros Hlen Hdup.
        rewrite (CreateStatistics_resolved stmt st nsp namestr rel attnums); trivial.
        destruct (Z.ltb_spec (Z.of_nat (List.length attnums)) 2); [lia|].
        rewrite Hdup. split.
        -- intros e ->. reflexivity.
        -- intros address st' Hrun.
           destruct (select_kinds (options stmt)) as [[bn bd]| |]; try discriminate.
           cbv zeta in Hrun.
           match type of Hrun with
           | (if ?c then _ else _) = _ => destruct c; [discriminate|]
           end.
           inversion Hrun; subst.
           exists (new_statistics st (rd_id rel) (namestrcpy namestr) nsp
                     (qsort compare_int16 attnums) (enabled_types bn bd)).
           split; reflexivity.
Qed.

(** C7. When the catalog holds a tuple with the given identifier,
    [RemoveStatisticsById] returns normally, having invalidated the
    cached plans of the table the tuple names in [stxrelid] and then
    deleted that tuple and no other (after which, identifiers being
    unique, the lookup finds nothing); when it holds none, the command
    fails with [ERRCODE_INTERNAL_ERROR], the code of [elog(ERROR)]. *)
Theorem RemoveStatisticsById_spec (statsOid : Oid) (st : State) :
  (forall tup,
     SearchSysCache1_STATEXTOID statsOid st = Ok (Some tup, st) ->
     exists st',
       RemoveStatisticsById statsOid st = Ok (tt, st')
       /\ HeapTupleGetOid tup = statsOid
       /\ effects st' =
            effects st
            ++ [Eff_CacheInvalidateRelcache (stxrelid (t_data tup));
                Eff_simple_heap_delete tup]
       /\ Permutation (pg_statistic_ext st) (tup :: pg_statistic_ext st')
       /\ pg_depend st' = pg_depend st
       /\ (NoDup (map t_oid (pg_statistic_ext st)) ->
           SearchSysCache1_STATEXTOID statsOid st' = Ok (None, st')))
  /\
  (SearchSysCache1_STATEXTOID statsOid st = Ok (None, st) ->
   RemoveStatisticsById statsOid st = Error ERRCODE_INTERNAL_ERROR).
Proof.
  unfold RemoveStatisticsById, bind, SearchSysCache1_STATEXTOID, gets.
  split.
  - intros tup Hfind. inversion Hfind as [Hfound]. rewrite Hfound.
    destruct (heap_remove_found _ _ _ Hfound) as [Hoid Hperm].
    eexists. split; [reflexivity|]. simpl.
    split; [exact Hoid|].
    split; [now rewrite <- app_assoc|].
    rewrite Hoid.
    split; [exact Hperm|]. split; [reflexivity|].
    intros Hnd. now rewrite heap_remove_gone.
  - intros Hfind. inversion Hfind as [Hnone]. rewrite Hnone. reflexivity.
Qed.

(** C8. A call of [CreateStatistics] that returns having added a
    statistics object has added one tuple to [pg_statistic_ext] and
    exactly two rows to [pg_depend].  Both rows are of type
    [DEPENDENCY_AUTO] and have as depender the new object: class
    [StatisticExtRelationId], the identifier of the tuple added, no
    sub-object, which is also the address returned.  The first row
    refers to the table of the statement (class [RelationRelationId],
    the identifier of the relation opened, which the tuple records in
    [stxrelid]); the second to the schema of the object's name (class
    [NamespaceRelationId], the namespace the name resolved to, which the
    tuple records in [stxnamespace]). *)
Theorem CreateStatistics_dependencies (stmt : CreateStatsStmt) (st st' : State)
    (address : ObjectAddress) :
  CreateStatistics stmt st = Ok (address, st') ->
  pg_statistic_ext st' <> pg_statistic_ext st ->
  exists nsp namestr rel tup dep_table dep_schema,
    QualifiedNameGetCreationNamespace (defnames stmt) = Ok (nsp, namestr)
    /\ relation_openrv (relation stmt) = Ok rel
    /\ pg_statistic_ext st' = pg_statistic_ext st ++ [tup]
    /\ stxrelid (t_data tup) = RelationGetRelid rel
    /\ stxnamespace (t_data tup) = nsp
    /\ pg_depend st' = pg_depend st ++ [dep_table; dep_schema]
    /\ (classId (depender dep_table) = StatisticExtRelationId
        /\ objectId (depender dep_table) = HeapTupleGetOid tup
        /\ objectSubId (depender dep_table) = 0)
    /\ (classId (referenced dep_table) = RelationRelationId
        /\ objectId (referenced dep_table) = RelationGetRelid rel
        /\ objectSubId (referenced dep_table) = 0)
    /\ deptype dep_table = DEPENDENCY_AUTO
    /\ (classId (depender dep_schema) = StatisticExtRelationId
        /\ objectId (depender dep_schema) = HeapTupleGetOid tup
        /\ objectSubId (depender dep_schema) = 0)
    /\ (classId (referenced dep_schema) = NamespaceRelationId
        /\ objectId (referenced dep_schema) = nsp
        /\ objectSubId (referenced dep_schema) = 0)
    /\ deptype dep_schema = DEPENDENCY_AUTO
    /\ (classId address = StatisticExtRelationId
        /\ objectId address = HeapTupleGetOid tup
        /\ objectSubId address = 0).
Proof.
  intros Hrun Hnew.
  destruct (CreateStatistics_Ok_inv _ _ _ _ Hrun)
    as (nsp & namestr & Hname & [Hskip | Hcreated]).
  - destruct Hskip as (_ & _ & _ & ->). now elim Hnew.
  - destruct Hcreated as (_ & rel & attnums & bn & bd & Hrel & _ & _ & _ & _ & _ & Hres).
    cbv zeta in Hres. destruct Hres as [-> ->].
    exists nsp, namestr, rel,
      (new_statistics st (rd_id rel) (namestrcpy namestr) nsp
         (qsort compare_int16 attnums) (enabled_types bn bd)),
      (table_dependency (nextOid st) (rd_id rel)),
      (schema_dependency (nextOid st) nsp).
    split; [exact Hname|]. split; [exact Hrel|].
    cbn. repeat split; reflexivity.
Qed.

(** ** Further properties of the code *)

(** X1. On [int16] values the comparator's subtraction does not wrap, so
    its sign orders its arguments and swapping them negates it. *)
Theorem compare_int16_sign (a b : Z) :
  int16_range a -> int16_range b ->
  compare_int16 a b = a - b
  /\ (compare_int16 a b < 0 <-> a < b)
  /\ (compare_int16 a b = 0 <-> a = b)
  /\ (compare_int16 a b > 0 <-> a > b)
  /\ compare_int16 b a = - compare_int16 a b.
Proof.
  intros Ha Hb.
  rewrite (compare_int16_no_overflow a b), (compare_int16_no_overflow b a)
    by assumption.
  repeat split; lia.
Qed.

(** X2. After the sort, the scan of consecutive entries reports a
    repetition exactly when the resolved list has one. *)
Theorem sorted_scan_finds_duplicates (attnums : list AttrNumber) :
  Forall int16_range attnums ->
  (has_adjacent_duplicate (qsort compare_int16 attnums) = false <-> NoDup attnums).
Proof.
  intros Hrange. split.
  - intros Hscan.
    eapply Permutation_NoDup; [apply Permutation_sym, qsort_Permutation|].
    apply StronglySorted_lt_NoDup, has_adjacent_duplicate_NoDup; [|exact Hscan].
    now apply qsort_StronglySorted.
  - intros Hnd. apply NoDup_has_adjacent_duplicate.
    eapply Permutation_NoDup; [apply qsort_Permutation|exact Hnd].
Qed.

Lemma column_usable_attnum (relid : Oid) (attname : string) :
  column_usable relid attname = true -> 0 <= column_attnum relid attname.
Proof.
  unfold column_usable, column_attnum.
  destruct (SearchSysCacheAttName relid attname); [|discriminate].
  intros H. apply andb_true_iff in H. destruct H as [H _]. now apply Z.leb_le.
Qed.

(** A name that is not usable ends the loop, before the bound is looked
    at. *)
Lemma keys_loop_unusable (relid : Oid) (attname : string) (l : list string)
    (attnums : list AttrNumber) :
  column_usable relid attname = false ->
  keys_loop relid (attname :: l) attnums =
    Error (match SearchSysCacheAttName relid attname with
           | None => ERRCODE_UNDEFINED_COLUMN
           | Some _ => ERRCODE_FEATURE_NOT_SUPPORTED
           end).
Proof.
  unfold column_usable. simpl.
  destruct (SearchSysCacheAttName relid attname) as [attForm|]; [|reflexivity].
  intros H. destruct (Z.ltb_spec (attnum attForm) 0) as [|Hpos]; [reflexivity|].
  destruct (lt_opr (lookup_type_cache (atttypid attForm)) =? InvalidOid);
    [reflexivity|].
  apply Z.leb_le in Hpos. rewrite Hpos in H. discriminate.
Qed.

(** What the column loop returns, read backwards. *)
Lemma keys_loop_Ok_inv (relid : Oid) (l : list string) :
  forall attnums result : list AttrNumber,
    keys_loop relid l attnums = Ok result ->
    Forall (fun attname => column_usable relid attname = true) l
    /\ result = attnums ++ map (column_attnum relid) l
    /\ ((List.length attnums <= STATS_MAX_DIMENSIONS)%nat ->
        (List.length result <= STATS_MAX_DIMENSIONS)%nat).
Proof.
  induction l as [|attname l IH]; intros attnums result H.
  - simpl in H. inversion H; subst. rewrite app_nil_r. auto.
  - destruct (column_usable relid attname) eqn:Hu.
    + rewrite keys_loop_step in H by assumption.
      rewrite Z.geb_leb in H.
      destruct (Z.leb_spec (Z.of_nat STATS_MAX_DIMENSIONS)
                           (Z.of_nat (List.length attnums))) as [|Hlt];
        [discriminate|].
      destruct (IH _ _ H) as (Hl & -> & Hbound).
      split; [now constructor|]. split.
      * simpl. now rewrite <- app_assoc.
      * intros _. apply Hbound. rewrite length_app. simpl. lia.
    + rewrite keys_loop_unusable in H by assumption. discriminate.
Qed.

Lemma keys_loop_not_Trap (relid : Oid) (l : list string) :
  forall attnums : list AttrNumber, keys_loop relid l attnums <> Trap.
Proof.
  induction l as [|attname l IH]; intros attnums; [discriminate|].
  destruct (column_usable relid attname) eqn:Hu.
  - rewrite keys_loop_step by assumption.
    destruct (_ >=? _); [discriminate|apply IH].
  - rewrite keys_loop_unusable by assumption. discriminate.
Qed.

Lemma keys_loop_error_codes (relid : Oid) (l : list string) :
  forall (attnums : list AttrNumber) (e : sqlstate),
    keys_loop relid l attnums = Error e ->
    e = ERRCODE_UNDEFINED_COLUMN \/ e = ERRCODE_FEATURE_NOT_SUPPORTED
    \/ e = ERRCODE_TOO_MANY_COLUMNS.
Proof.
  induction l as [|attname l IH]; intros attnums e H; [discriminate|].
  destruct (column_usable relid attname) eqn:Hu.
  - rewrite keys_loop_step in H by assumption.
    destruct (_ >=? _); [inversion H; auto|eapply IH; eassumption].
  - rewrite keys_loop_unusable in H by assumption.
    destruct (SearchSysCacheAttName relid attname); inversion H; auto.
Qed.

Lemma keys_loop_first_unusable (relid : Oid) (good : list string) :
  forall (bad : string) (rest : list string) (attnums : list AttrNumber),
    Forall (fun attname => column_usable relid attname = true) good ->
    (List.length attnums + List.length good <= STATS_MAX_DIMENSIONS)%nat ->
    column_usable relid bad = false ->
    keys_loop relid (good ++ bad :: rest) attnums =
      Error (match SearchSysCacheAttName relid bad with
             | None => ERRCODE_UNDEFINED_COLUMN
             | Some _ => ERRCODE_FEATURE_NOT_SUPPORTED
             end).
Proof.
  induction good as [|attname good IH]; intros bad rest attnums Hgood Hlen Hbad.
  - now apply keys_loop_unusable.
  - inversion Hgood as [|? ? Hu Hgood']; subst. simpl in Hlen.
    rewrite <- app_comm_cons, keys_loop_step by assumption.
    rewrite Z.geb_leb.
    destruct (Z.leb_spec (Z.of_nat STATS_MAX_DIMENSIONS)
                         (Z.of_nat (List.length attnums))) as [|_]; [lia|].
    apply IH; trivial. rewrite length_app. simpl. lia.
Qed.

(** X3. The first name of the list that is not usable decides the
    error, provided at most [STATS_MAX_DIMENSIONS] usable names come
    before it: an unknown name gives [ERRCODE_UNDEFINED_COLUMN], a system
    column or a type without less-than operator
    [ERRCODE_FEATURE_NOT_SUPPORTED].  The bound is not reported in its
    place, even when exactly [STATS_MAX_DIMENSIONS] names precede it. *)
Theorem CreateStatistics_first_unusable_column (stmt : CreateStatsStmt) (st : State)
    (nsp : Oid) (namestr : string) (rel : RelationData)
    (good : list string) (bad : string) (rest : list string) :
  QualifiedNameGetCreationNamespace (defnames stmt) = Ok (nsp, namestr) ->
  SearchSysCacheExists2_STATEXTNAMENSP (namestrcpy namestr) nsp st = Ok (false, st) ->
  relation_openrv (relation stmt) = Ok rel ->
  relkind_has_statistics (rd_relkind rel) ->
  keys stmt = (good ++ bad :: rest)%list ->
  Forall (fun attname => column_usable (rd_id rel) attname = true) good ->
  (List.length good <= STATS_MAX_DIMENSIONS)%nat ->
  column_usable (rd_id rel) bad = false ->
  CreateStatistics stmt st =
    Error (match SearchSysCacheAttName (rd_id rel) bad with
           | None => ERRCODE_UNDEFINED_COLUMN
           | Some _ => ERRCODE_FEATURE_NOT_SUPPORTED
           end).
Proof.
  intros Hname Hfree Hrel Hkind Hkeys Hgood Hlen Hbad.
  apply (CreateStatistics_keys_error stmt st nsp namestr rel); trivial.
  rewrite Hkeys. now apply keys_loop_first_unusable.
Qed.

(** *** Options *)

Lemma options_loop_unrecognized (l : list DefElem) :
  forall bn bd req,
    forallb option_recognized l = false ->
    options_loop l bn bd req = Error ERRCODE_SYNTAX_ERROR.
Proof.
  induction l as [|opt l IH]; intros bn bd req H; [discriminate|].
  simpl in H. unfold option_recognized in H at 1. simpl.
  destruct (String.eqb (defname opt) "ndistinct"); [now apply IH|].
  destruct (String.eqb (defname opt) "dependencies"); [now apply IH|reflexivity].
Qed.

Lemma default_last_value_cons_same (name : string) (opt : DefElem)
    (l : list DefElem) (b : bool) :
  String.eqb (defname opt) name = true ->
  match last_value name (opt :: l) with Some v => v | None => b end
  = match last_value name l with Some v => v | None => defarg opt end.
Proof. intros H. simpl. rewrite H. now destruct (last_value name l). Qed.

Lemma default_last_value_cons_other (name : string) (opt : DefElem)
    (l : list DefElem) (b : bool) :
  String.eqb (defname opt) name = false ->
  match last_value name (opt :: l) with Some v => v | None => b end
  = match last_value name l with Some v => v | None => b end.
Proof. intros H. simpl. rewrite H. now destruct (last_value name l). Qed.

(** The flags the option loop leaves: for each kind the value of the
    last option that names it, else the flag it started with. *)
Lemma options_loop_last_value (l : list DefElem) :
  forall bn bd req,
    forallb option_recognized l = true ->
    options_loop l bn bd req =
      Ok (match last_value "ndistinct" l with Some v => v | None => bn end,
          match last_value "dependencies" l with Some v => v | None => bd end,
          req || negb (Nat.eqb (List.length l) 0)).
Proof.
  induction l as [|opt l IH]; intros bn bd req H.
  - simpl. now rewrite orb_false_r.
  - simpl in H. apply andb_true_iff in H. destruct H as [Hopt Hl].
    unfold option_recognized in Hopt.
    cbn [options_loop].
    destruct (String.eqb (defname opt) "ndistinct") eqn:Hnd.
    + rewrite (IH _ _ _ Hl).
      rewrite (default_last_value_cons_same _ _ _ bn Hnd).
      rewrite (default_last_value_cons_other "dependencies" opt l bd).
      * simpl. now rewrite orb_true_r.
      * apply String.eqb_eq in Hnd. now rewrite Hnd.
    + simpl in Hopt. rewrite Hopt.
      rewrite (IH _ _ _ Hl).
      rewrite (default_last_value_cons_same _ _ _ bd Hopt).
      rewrite (default_last_value_cons_other "ndistinct" opt l bn Hnd).
      simpl. now rewrite orb_true_r.
Qed.

(** X4. The option list is accepted exactly when every name in it is
    [ndistinct] or [dependencies]; any other name, at any position, gives
    [ERRCODE_SYNTAX_ERROR]. *)
Theorem select_kinds_accepts_recognized (opts : list DefElem) :
  (forallb option_recognized opts = true <->
   exists bn bd, select_kinds opts = Ok (bn, bd))
  /\ (forallb option_recognized opts = false <->
      select_kinds opts = Error ERRCODE_SYNTAX_ERROR).
Proof.
  unfold select_kinds.
  destruct (forallb option_recognized opts) eqn:H.
  - rewrite (options_loop_last_value _ _ _ _ H). simpl.
    split; split; try discriminate; trivial.
    + intros _. destruct (Nat.eqb (List.length opts) 0); simpl; eauto.
    + destruct (Nat.eqb (List.length opts) 0); discriminate.
  - rewrite (options_loop_unrecognized _ _ _ _ H).
    split; split; try discriminate; trivial.
    intros (bn & bd & Habs). discriminate.
Qed.

(** X5. With at least one option, all of them recognized, each kind is
    built exactly when the last option naming it says [true]; a kind no
    option names is not built. *)
Theorem select_kinds_last_option_wins (opts : list DefElem) :
  opts <> [] ->
  forallb option_recognized opts = true ->
  select_kinds opts =
    Ok (match last_value "ndistinct" opts with Some v => v | None => false end,
        match last_value "dependencies" opts with Some v => v | None => false end).
Proof.
  intros Hne H. unfold select_kinds.
  rewrite (options_loop_last_value _ _ _ _ H).
  destruct opts; [now elim Hne|reflexivity].
Qed.

Lemma last_value_In (name : string) (l : list DefElem) (v : bool) :
  last_value name l = Some v ->
  In {| defname := name; defarg := v |} l.
Proof.
  induction l as [|opt l IH]; simpl; [discriminate|].
  destruct (last_value name l) as [v'|].
  - intros H. right. apply IH. exact H.
  - destruct (String.eqb_spec (defname opt) name) as [Heq|]; [|discriminate].
    intros H. inversion H; subst. left. now destruct opt.
Qed.

Lemma In_last_value (opt : DefElem) (l : list DefElem) :
  NoDup (map defname l) -> In opt l ->
  last_value (defname opt) l = Some (defarg opt).
Proof.
  induction l as [|opt' l IH]; simpl; [contradiction|].
  intros Hnd Hin. inversion Hnd as [|? ? Hnotin Hnd']; subst.
  destruct Hin as [->|Hin].
  - destruct (last_value (defname opt) l) as [v|] eqn:E.
    + apply last_value_In in E. elim Hnotin.
      change (defname opt) with (defname {| defname := defname opt; defarg := v |}).
      now apply in_map.
    + now rewrite String.eqb_refl.
  - now rewrite (IH Hnd' Hin).
Qed.

Lemma last_value_Permutation (name : string) (l l' : list DefElem) :
  NoDup (map defname l) -> Permutation l l' ->
  last_value name l = last_value name l'.
Proof.
  intros Hnd Hperm.
  assert (NoDup (map defname l')) as Hnd'
    by (eapply Permutation_NoDup; [apply Permutation_map, Hperm|exact Hnd]).
  destruct (last_value name l) as [v|] eqn:E.
  - apply last_value_In in E.
    apply (Permutation_in _ Hperm) in E.
    apply (In_last_value _ _ Hnd') in E. simpl in E. now rewrite E.
  - destruct (last_value name l') as [v|] eqn:E'; [|reflexivity].
    apply last_value_In in E'.
    apply (Permutation_in _ (Permutation_sym Hperm)) in E'.
    apply (In_last_value _ _ Hnd) in E'. simpl in E'.
    rewrite E' in E. discriminate.
Qed.

Lemma forallb_Permutation {A : Type} (f : A -> bool) (l l' : list A) :
  Permutation l l' -> forallb f l = forallb f l'.
Proof.
  induction 1 as [|x l l' _ IH|x y l|l l' l'' _ IH1 _ IH2]; simpl.
  - reflexivity.
  - now rewrite IH.
  - destruct (f x), (f y); reflexivity.
  - now rewrite IH1.
Qed.

(** X6. When no option name occurs twice, the order of the options does
    not matter. *)
Theorem select_kinds_order_independent (opts opts' : list DefElem) :
  NoDup (map defname opts) ->
  Permutation opts opts' ->
  select_kinds opts = select_kinds opts'.
Proof.
  intros Hnd Hperm.
  pose proof (forallb_Permutation option_recognized _ _ Hperm) as Hrec.
  destruct (forallb option_recognized opts) eqn:H.
  - unfold select_kinds.
    rewrite (options_loop_last_value opts) by assumption.
    rewrite (options_loop_last_value opts') by now rewrite <- Hrec.
    rewrite !(last_value_Permutation _ _ _ Hnd Hperm).
    now rewrite (Permutation_length Hperm).
  - unfold select_kinds.
    rewrite (options_loop_unrecognized opts) by assumption.
    rewrite (options_loop_unrecognized opts') by now rewrite <- Hrec.
    reflexivity.
Qed.

(** *** Outcomes of [CreateStatistics] *)

Lemma relkind_without_statistics_test (k : relkind) :
  ~ relkind_has_statistics k ->
  negb (relkind_eqb k RELKIND_RELATION)
  && negb (relkind_eqb k RELKIND_MATVIEW)
  && negb (relkind_eqb k RELKIND_FOREIGN_TABLE)
  && negb (relkind_eqb k RELKIND_PARTITIONED_TABLE) = true.
Proof.
  unfold relkind_has_statistics. intros H.
  destruct k; try reflexivity; elim H; auto.
Qed.

Lemma select_kinds_error_code (opts : list DefElem) (e : sqlstate) :
  select_kinds opts = Error e ->
  e = ERRCODE_SYNTAX_ERROR /\ forallb option_recognized opts = false.
Proof.
  unfold select_kinds. destruct (forallb option_recognized opts) eqn:H.
  - rewrite (options_loop_last_value _ _ _ _ H).
    destruct (negb _); discriminate.
  - rewrite (options_loop_unrecognized _ _ _ _ H). intros Heq. now inversion Heq.
Qed.

(** X7. With a free name and the table opened, the command fails with
    [ERRCODE_WRONG_OBJECT_TYPE] exactly when the relation is not a
    table, materialized view, foreign table or partitioned table; the
    columns and options play no part. *)
Theorem CreateStatistics_wrong_object_type (stmt : CreateStatsStmt) (st : State)
    (nsp : Oid) (namestr : string) (rel : RelationData) :
  QualifiedNameGetCreationNamespace (defnames stmt) = Ok (nsp, namestr) ->
  SearchSysCacheExists2_STATEXTNAMENSP (namestrcpy namestr) nsp st = Ok (false, st) ->
  relation_openrv (relation stmt) = Ok rel ->
  (CreateStatistics stmt st = Error ERRCODE_WRONG_OBJECT_TYPE
   <-> ~ relkind_has_statistics (rd_relkind rel)).
Proof.
  intros Hname Hfree Hrel. split.
  - intros Hrun Hkind.
    destruct (keys_loop (rd_id rel) (keys stmt) []) as [attnums|e|] eqn:Hkeys.
    + rewrite (CreateStatistics_resolved _ _ _ _ _ _ Hname Hfree Hrel Hkind Hkeys)
        in Hrun.
      destruct (_ <? 2); [discriminate|].
      destruct (has_adjacent_duplicate _); [discriminate|].
      destruct (select_kinds (options stmt)) as [[bn bd]|e|] eqn:Hopts;
        try discriminate.
      * cbv zeta in Hrun. destruct (USE_ASSERT_CHECKING && _); discriminate.
      * apply select_kinds_error_code in Hopts. destruct Hopts as [-> _].
        discriminate.
    + rewrite (CreateStatistics_keys_error _ _ _ _ _ _ Hname Hfree Hrel Hkind Hkeys)
        in Hrun.
      apply keys_loop_error_codes in Hkeys.
      inversion Hrun; subst. destruct Hkeys as [H|[H|H]]; discriminate.
    + now apply keys_loop_not_Trap in Hkeys.
  - intros Hkind. unfold CreateStatistics, bind, lift.
    rewrite Hname, Hfree, Hrel.
    now rewrite (relkind_without_statistics_test _ Hkind).
Qed.

(** X8. With a free name and a table of an accepted kind, the command
    fails with [ERRCODE_SYNTAX_ERROR] exactly when the columns pass
    resolution, the arity test and the scan for repetitions, and some
    option name is not recognized: a bad option is reported only after
    the columns have been validated. *)
Theorem CreateStatistics_syntax_error (stmt : CreateStatsStmt) (st : State)
    (nsp : Oid) (namestr : string) (rel : RelationData) :
  QualifiedNameGetCreationNamespace (defnames stmt) = Ok (nsp, namestr) ->
  SearchSysCacheExists2_STATEXTNAMENSP (namestrcpy namestr) nsp st = Ok (false, st) ->
  relation_openrv (relation stmt) = Ok rel ->
  relkind_has_statistics (rd_relkind rel) ->
  (CreateStatistics stmt st = Error ERRCODE_SYNTAX_ERROR
   <-> exists attnums,
         keys_loop (rd_id rel) (keys stmt) [] = Ok attnums
         /\ 2 <= Z.of_nat (List.length attnums)
         /\ has_adjacent_duplicate (qsort compare_int16 attnums) = false
         /\ forallb option_recognized (options stmt) = false).
Proof.
  intros Hname Hfree Hrel Hkind. split.
  - intros Hrun.
    destruct (keys_loop (rd_id rel) (keys stmt) []) as [attnums|e|] eqn:Hkeys.
    + rewrite (CreateStatistics_resolved _ _ _ _ _ _ Hname Hfree Hrel Hkind Hkeys)
        in Hrun.
      destruct (Z.ltb_spec (Z.of_nat (List.length attnums)) 2); [discriminate|].
      destruct (has_adjacent_duplicate _) eqn:Hscan; [discriminate|].
      destruct (select_kinds (options stmt)) as [[bn bd]|e|] eqn:Hopts;
        try discriminate.
      * cbv zeta in Hrun. destruct (USE_ASSERT_CHECKING && _); discriminate.
      * apply select_kinds_error_code in Hopts. destruct Hopts as [_ Hopts].
        exists attnums. auto.
    + rewrite (CreateStatistics_keys_error _ _ _ _ _ _ Hname Hfree Hrel Hkind Hkeys)
        in Hrun.
      apply keys_loop_error_codes in Hkeys.
      inversion Hrun; subst. destruct Hkeys as [H|[H|H]]; discriminate.
    + now apply keys_loop_not_Trap in Hkeys.
  - intros (attnums & Hkeys & Hlen & Hscan & Hopts).
    rewrite (CreateStatistics_resolved _ _ _ _ _ _ Hname Hfree Hrel Hkind Hkeys).
    destruct (Z.ltb_spec (Z.of_nat (List.length attnums)) 2); [lia|].
    rewrite Hscan. unfold select_kinds.
    now rewrite (options_loop_unrecognized _ _ _ _ Hopts).
Qed.

(** *** What a creation stores *)

Lemma enabled_types_NoDup (bn bd : bool) : NoDup (enabled_types bn bd).
Proof.
  destruct bn, bd; simpl; repeat constructor; simpl; intuition discriminate.
Qed.

(** X9. Whatever the statement, a row that [CreateStatistics] adds
    carries the next object identifier, which the returned address
    names; its column list is strictly ascending, has between 2 and
    [STATS_MAX_DIMENSIONS] entries, none of them a system attribute; its
    owner is the current user; both payload columns are null; no kind is
    listed twice, and with assertions compiled in some kind is listed. *)
Theorem CreateStatistics_stored_row (stmt : CreateStatsStmt) (st st' : State)
    (address : ObjectAddress) :
  CreateStatistics stmt st = Ok (address, st') ->
  pg_statistic_ext st' <> pg_statistic_ext st ->
  exists tup,
    pg_statistic_ext st' = pg_statistic_ext st ++ [tup]
    /\ HeapTupleGetOid tup = nextOid st
    /\ address = ObjectAddressSet StatisticExtRelationId (HeapTupleGetOid tup)
    /\ StronglySorted Z.lt (stxkeys (t_data tup))
    /\ (2 <= List.length (stxkeys (t_data tup)) <= STATS_MAX_DIMENSIONS)%nat
    /\ Forall (fun a => 0 <= a <= INT16_MAX) (stxkeys (t_data tup))
    /\ stxowner (t_data tup) = GetUserId
    /\ stxndistinct (t_data tup) = None
    /\ stxdependencies (t_data tup) = None
    /\ NoDup (stxkind (t_data tup))
    /\ (USE_ASSERT_CHECKING = true -> stxkind (t_data tup) <> []).
Proof.
  intros Hrun Hnew.
  destruct (CreateStatistics_Ok_inv _ _ _ _ Hrun)
    as (nsp & namestr & Hname & [Hskip | Hcreated]).
  - destruct Hskip as (_ & _ & _ & ->). now elim Hnew.
  - destruct Hcreated
      as (_ & rel & attnums & bn & bd & Hrel & Hkeys & Hlen & Hscan & Hopts
          & Hassert & Hres).
    cbv zeta in Hres. destruct Hres as [-> ->].
    destruct (keys_loop_Ok_inv _ _ _ _ Hkeys) as (Husable & Hattnums & Hbound).
    simpl in Hattnums.
    pose proof (usable_attnums_int16 (rd_id rel) (keys stmt)) as Hrange.
    rewrite <- Hattnums in Hrange.
    eexists. split; [reflexivity|]. simpl.
    split; [reflexivity|]. split; [reflexivity|].
    split.
    { apply has_adjacent_duplicate_NoDup; [|exact Hscan].
      now apply qsort_StronglySorted. }
    split.
    { pose proof (Permutation_length (qsort_Permutation compare_int16 attnums)) as Hl.
      specialize (Hbound (Nat.le_0_l _)).
      unfold AttrNumber in *. lia. }
    split.
    { eapply Permutation_Forall; [apply qsort_Permutation|].
      subst attnums. apply Forall_forall. intros a Ha.
      apply in_map_iff in Ha. destruct Ha as (attname & <- & Hin).
      rewrite Forall_forall in Husable. split.
      - now apply column_usable_attnum, Husable.
      - apply column_attnum_int16. }
    split; [reflexivity|]. split; [reflexivity|]. split; [reflexivity|].
    split; [apply enabled_types_NoDup|exact Hassert].
Qed.

(** *** Invariants and compositions *)

Lemma name_lookup_In (name : Name) (nsp : Oid) (st : State) :
  SearchSysCacheExists2_STATEXTNAMENSP name nsp st = Ok (true, st)
  <-> In (name, nsp) (statistics_names st).
Proof.
  unfold SearchSysCacheExists2_STATEXTNAMENSP, gets, statistics_names.
  split.
  - intros H. inversion H as [Hex]. apply existsb_exists in Hex.
    destruct Hex as (tup & Hin & Htest).
    apply andb_true_iff in Htest. destruct Htest as [Hn Hs].
    apply String.eqb_eq in Hn. apply Z.eqb_eq in Hs.
    apply in_map_iff. exists tup. now rewrite Hn, Hs.
  - intros H. apply in_map_iff in H. destruct H as (tup & Heq & Hin).
    inversion Heq; subst.
    replace (existsb _ (pg_statistic_ext st)) with true; [reflexivity|].
    symmetry. apply existsb_exists. exists tup. split; [assumption|].
    now rewrite String.eqb_refl, Z.eqb_refl.
Qed.

Lemma name_lookup_bool (name : Name) (nsp : Oid) (st : State) :
  exists found, SearchSysCacheExists2_STATEXTNAMENSP name nsp st = Ok (found, st).
Proof. unfold SearchSysCacheExists2_STATEXTNAMENSP, gets. eauto. Qed.

(** X10. If no two statistics objects share a name within a schema
    before the call, none do after a call that returns. *)
Theorem CreateStatistics_keeps_names_unique (stmt : CreateStatsStmt) (st st' : State)
    (address : ObjectAddress) :
  NoDup (statistics_names st) ->
  CreateStatistics stmt st = Ok (address, st') ->
  NoDup (statistics_names st').
Proof.
  intros Hnd Hrun.
  destruct (CreateStatistics_Ok_inv _ _ _ _ Hrun)
    as (nsp & namestr & Hname & [Hskip | Hcreated]).
  - destruct Hskip as (_ & _ & _ & ->). exact Hnd.
  - destruct Hcreated as (Hfree & rel & attnums & bn & bd & _ & _ & _ & _ & _ & _ & Hres).
    cbv zeta in Hres. destruct Hres as [_ ->].
    unfold statistics_names, with_statistics. cbn [pg_statistic_ext].
    rewrite map_app. cbn [map new_statistics t_data stxname stxnamespace].
    eapply Permutation_NoDup; [apply Permutation_cons_append|].
    constructor; [|exact Hnd].
    intros Hin. apply name_lookup_In in Hin.
    rewrite Hfree in Hin. discriminate.
Qed.

(** X11. A call that returns has only added: the rows of
    [pg_statistic_ext] and [pg_depend] and the effects recorded before the
    call are still there, unchanged and in place, followed by at most one
    new statistics row with exactly two dependencies, or by none of
    either. *)
Theorem CreateStatistics_append_only (stmt : CreateStatsStmt) (st st' : State)
    (address : ObjectAddress) :
  CreateStatistics stmt st = Ok (address, st') ->
  exists rows deps effs,
    pg_statistic_ext st' = pg_statistic_ext st ++ rows
    /\ pg_depend st' = pg_depend st ++ deps
    /\ effects st' = effects st ++ effs
    /\ nextOid st <= nextOid st'
    /\ List.length deps = (2 * List.length rows)%nat
    /\ (List.length rows <= 1)%nat.
Proof.
  intros Hrun.
  destruct (CreateStatistics_Ok_inv _ _ _ _ Hrun)
    as (nsp & namestr & Hname & [Hskip | Hcreated]).
  - destruct Hskip as (_ & _ & _ & ->).
    exists [], [], [Eff_ereport_NOTICE ERRCODE_DUPLICATE_OBJECT]. simpl.
    rewrite !app_nil_r. repeat split; trivial; lia.
  - destruct Hcreated as (_ & rel & attnums & bn & bd & _ & _ & _ & _ & _ & _ & Hres).
    cbv zeta in Hres. destruct Hres as [_ ->].
    do 3 eexists. simpl.
    repeat (split; [reflexivity|]). split; [lia|]. split; [reflexivity|]. simpl. lia.
Qed.

(** X12. After a call that returned, the same statement finds its name
    taken: given again it fails with [ERRCODE_DUPLICATE_OBJECT], or with
    [if_not_exists] is skipped with a notice. *)
Theorem CreateStatistics_twice (stmt : CreateStatsStmt) (st st' : State)
    (address : ObjectAddress) :
  CreateStatistics stmt st = Ok (address, st') ->
  CreateStatistics stmt st' =
    if if_not_exists stmt
    then Ok (InvalidObjectAddress,
             logged st' (Eff_ereport_NOTICE ERRCODE_DUPLICATE_OBJECT))
    else Error ERRCODE_DUPLICATE_OBJECT.
Proof.
  intros Hrun.
  destruct (CreateStatistics_Ok_inv _ _ _ _ Hrun)
    as (nsp & namestr & Hname & [Hskip | Hcreated]).
  - destruct Hskip as (Hfound & _ & _ & ->).
    apply (CreateStatistics_name_exists stmt _ nsp namestr); [assumption|].
    apply name_lookup_In. apply name_lookup_In in Hfound. exact Hfound.
  - destruct Hcreated as (_ & rel & attnums & bn & bd & _ & _ & _ & _ & _ & _ & Hres).
    cbv zeta in Hres. destruct Hres as [_ ->].
    apply (CreateStatistics_name_exists stmt _ nsp namestr); [assumption|].
    apply name_lookup_In.
    unfold statistics_names, with_statistics. cbn [pg_statistic_ext].
    rewrite map_app. apply in_or_app. right. now left.
Qed.

Lemma find_app_fresh (statsOid : Oid) (rows : list HeapTupleData)
    (tup : HeapTupleData) :
  (forall row, In row rows -> t_oid row <> statsOid) ->
  t_oid tup = statsOid ->
  find (fun row => t_oid row =? statsOid) (rows ++ [tup]) = Some tup
  /\ heap_remove statsOid (rows ++ [tup]) = rows.
Proof.
  intros Hfresh Htup. induction rows as [|row rows IH]; simpl.
  - apply Z.eqb_eq in Htup. now rewrite Htup.
  - destruct (Z.eqb_spec (t_oid row) statsOid) as [Heq|_].
    + elim (Hfresh row); [now left|exact Heq].
    + destruct IH as [IH1 IH2]; [intros r Hr; apply Hfresh; now right|].
      now rewrite IH1, IH2.
Qed.

(** X13. Creation followed by removal of the object created, when no
    older row carries the identifier the creation assigned: the removal
    succeeds, [pg_statistic_ext] is back to what it was before the
    creation, the table of the statement is invalidated once more, and
    the two [pg_depend] rows of the creation are still there, since
    [RemoveStatisticsById] does not touch [pg_depend]. *)
Theorem CreateStatistics_then_RemoveStatisticsById (stmt : CreateStatsStmt)
    (st st1 : State) (address : ObjectAddress) :
  CreateStatistics stmt st = Ok (address, st1) ->
  pg_statistic_ext st1 <> pg_statistic_ext st ->
  (forall row, In row (pg_statistic_ext st) -> t_oid row <> nextOid st) ->
  exists st2 rel tup,
    relation_openrv (relation stmt) = Ok rel
    /\ RemoveStatisticsById (objectId address) st1 = Ok (tt, st2)
    /\ pg_statistic_ext st2 = pg_statistic_ext st
    /\ pg_depend st2 = pg_depend st1
    /\ List.length (pg_depend st2) = (List.length (pg_depend st) + 2)%nat
    /\ effects st2 =
         effects st1
         ++ [Eff_CacheInvalidateRelcache (RelationGetRelid rel);
             Eff_simple_heap_delete tup].
Proof.
  intros Hrun Hnew Hfresh.
  destruct (CreateStatistics_Ok_inv _ _ _ _ Hrun)
    as (nsp & namestr & Hname & [Hskip | Hcreated]).
  - destruct Hskip as (_ & _ & _ & ->). now elim Hnew.
  - destruct Hcreated as (_ & rel & attnums & bn & bd & Hrel & _ & _ & _ & _ & _ & Hres).
    cbv zeta in Hres. destruct Hres as [-> ->].
    set (tup := new_statistics st (rd_id rel) (namestrcpy namestr) nsp
                  (qsort compare_int16 attnums) (enabled_types bn bd)).
    destruct (find_app_fresh (nextOid st) (pg_statistic_ext st) tup Hfresh eq_refl)
      as [Hfind Hremove].
    exists (mkState (pg_statistic_ext st)
                    (pg_depend (with_statistics st tup))
                    (nextOid (with_statistics st tup))
                    (effects (with_statistics st tup)
                     ++ [Eff_CacheInvalidateRelcache (rd_id rel);
                         Eff_simple_heap_delete tup])),
           rel, tup.
    split; [exact Hrel|]. split.
    + unfold RemoveStatisticsById, bind, SearchSysCache1_STATEXTOID, gets.
      cbn [objectId ObjectAddressSet with_statistics pg_statistic_ext].
      change (t_oid tup) with (nextOid st). rewrite Hfind.
      unfold CacheInvalidateRelcacheByRelid, emit, simple_heap_delete.
      cbn [pg_statistic_ext pg_depend nextOid effects with_statistics].
      change (t_oid tup) with (nextOid st). rewrite Hremove.
      rewrite <- app_assoc. reflexivity.
    + cbn [pg_statistic_ext pg_depend effects].
      repeat (split; [reflexivity|]). split; [|reflexivity].
      unfold with_statistics. cbn [pg_depend]. rewrite length_app. reflexivity.
Qed.

Lemma find_heap_remove_other (statsOid oid : Oid) (rows : list HeapTupleData) :
  oid <> statsOid ->
  find (fun tup => t_oid tup =? oid) (heap_remove statsOid rows)
  = find (fun tup => t_oid tup =? oid) rows.
Proof.
  intros Hne. induction rows as [|row rows IH]; simpl; [reflexivity|].
  destruct (Z.eqb_spec (t_oid row) statsOid) as [Heq|_].
  - destruct (Z.eqb_spec (t_oid row) oid) as [Heq'|_]; [|reflexivity].
    elim Hne. now rewrite <- Heq, <- Heq'.
  - simpl. now rewrite IH.
Qed.

(** X14. A removal that returns leaves every other object as it was:
    the lookup by any other identifier gives the same tuple after as
    before; and, identifiers being unique, a second removal of the same
    identifier fails with [ERRCODE_INTERNAL_ERROR]. *)
Theorem RemoveStatisticsById_frame (statsOid : Oid) (st st' : State) :
  RemoveStatisticsById statsOid st = Ok (tt, st') ->
  (forall oid,
     oid <> statsOid ->
     exists found,
       SearchSysCache1_STATEXTOID oid st = Ok (found, st)
       /\ SearchSysCache1_STATEXTOID oid st' = Ok (found, st'))
  /\ (List.length (pg_statistic_ext st) = S (List.length (pg_statistic_ext st')))
  /\ (NoDup (map t_oid (pg_statistic_ext st)) ->
      RemoveStatisticsById statsOid st' = Error ERRCODE_INTERNAL_ERROR).
Proof.
  unfold RemoveStatisticsById, bind, SearchSysCache1_STATEXTOID, gets.
  destruct (find (fun tup => t_oid tup =? statsOid) (pg_statistic_ext st))
    as [tup|] eqn:Hfind; [|discriminate].
  destruct (heap_remove_found _ _ _ Hfind) as [Hoid Hperm].
  intros Hrun. inversion Hrun; subst st'. clear Hrun.
  cbn [pg_statistic_ext]. rewrite Hoid.
  split; [|split].
  - intros oid Hne. eexists. split; [reflexivity|].
    now rewrite find_heap_remove_other.
  - apply Permutation_length in Hperm. exact Hperm.
  - intros Hnd. now rewrite heap_remove_gone.
Qed.

(** *** Characterizations *)

(** X15. The column loop, from an empty array, succeeds exactly when
    every name is usable and there are at most [STATS_MAX_DIMENSIONS]
    of them; it then returns their attribute numbers in the order of the
    names, repetitions included. *)
Theorem keys_loop_resolves (relid : Oid) (l : list string)
    (attnums : list AttrNumber) :
  keys_loop relid l [] = Ok attnums
  <-> Forall (fun attname => column_usable relid attname = true) l
      /\ (List.length l <= STATS_MAX_DIMENSIONS)%nat
      /\ attnums = map (column_attnum relid) l.
Proof.
  split.
  - intros H. destruct (keys_loop_Ok_inv _ _ _ _ H) as (Hl & -> & Hbound).
    simpl in *. split; [exact Hl|]. split; [|reflexivity].
    rewrite <- (length_map (column_attnum relid)). apply Hbound. lia.
  - intros (Hl & Hlen & ->). now rewrite keys_loop_usable.
Qed.

Lemma select_kinds_not_Trap (opts : list DefElem) : select_kinds opts <> Trap.
Proof.
  unfold select_kinds. destruct (forallb option_recognized opts) eqn:H.
  - rewrite (options_loop_last_value _ _ _ _ H). destruct (negb _); discriminate.
  - rewrite (options_loop_unrecognized _ _ _ _ H). discriminate.
Qed.

Lemma enabled_types_nil (bn bd : bool) :
  enabled_types bn bd = [] <-> (bn, bd) = (false, false).
Proof. destruct bn, bd; simpl; split; intros H; trivial; discriminate. Qed.

(** X16. With a free name and a table of an accepted kind, the command
    stops at its assertion exactly when assertions are compiled in, the
    columns pass resolution, the arity test and the scan for
    repetitions, and the options leave both kinds off. *)
Theorem CreateStatistics_assertion_failure (stmt : CreateStatsStmt) (st : State)
    (nsp : Oid) (namestr : string) (rel : RelationData) :
  QualifiedNameGetCreationNamespace (defnames stmt) = Ok (nsp, namestr) ->
  SearchSysCacheExists2_STATEXTNAMENSP (namestrcpy namestr) nsp st = Ok (false, st) ->
  relation_openrv (relation stmt) = Ok rel ->
  relkind_has_statistics (rd_relkind rel) ->
  (CreateStatistics stmt st = Trap
   <-> USE_ASSERT_CHECKING = true
       /\ select_kinds (options stmt) = Ok (false, false)
       /\ exists attnums,
            keys_loop (rd_id rel) (keys stmt) [] = Ok attnums
            /\ 2 <= Z.of_nat (List.length attnums)
            /\ has_adjacent_duplicate (qsort compare_int16 attnums) = false).
Proof.
  intros Hname Hfree Hrel Hkind. split.
  - intros Hrun.
    destruct (keys_loop (rd_id rel) (keys stmt) []) as [attnums|e|] eqn:Hkeys.
    + rewrite (CreateStatistics_resolved _ _ _ _ _ _ Hname Hfree Hrel Hkind Hkeys)
        in Hrun.
      destruct (Z.ltb_spec (Z.of_nat (List.length attnums)) 2); [discriminate|].
      destruct (has_adjacent_duplicate _) eqn:Hscan; [discriminate|].
      destruct (select_kinds (options stmt)) as [[bn bd]|e|] eqn:Hopts;
        try discriminate.
      * cbv zeta in Hrun.
        destruct USE_ASSERT_CHECKING; [|discriminate].
        destruct bn, bd; try discriminate. eauto 6.
      * now apply select_kinds_not_Trap in Hopts.
    + rewrite (CreateStatistics_keys_error _ _ _ _ _ _ Hname Hfree Hrel Hkind Hkeys)
        in Hrun. discriminate.
    + now apply keys_loop_not_Trap in Hkeys.
  - intros (Hassert & Hopts & attnums & Hkeys & Hlen & Hscan).
    rewrite (CreateStatistics_resolved _ _ _ _ _ _ Hname Hfree Hrel Hkind Hkeys).
    destruct (Z.ltb_spec (Z.of_nat (List.length attnums)) 2); [lia|].
    now rewrite Hscan, Hopts, Hassert.
Qed.

(** X17. Name resolved and table opened, [CreateStatistics] adds a
    statistics object exactly when the name is free, the relation is of
    an accepted kind, the columns are usable, distinct and between 2 and
    [STATS_MAX_DIMENSIONS] in number, every option is recognized and,
    with assertions compiled in, the options leave some kind on. *)
Theorem CreateStatistics_creates_iff (stmt : CreateStatsStmt) (st : State)
    (nsp : Oid) (namestr : string) (rel : RelationData) :
  QualifiedNameGetCreationNamespace (defnames stmt) = Ok (nsp, namestr) ->
  relation_openrv (relation stmt) = Ok rel ->
  ((exists address st',
      CreateStatistics stmt st = Ok (address, st')
      /\ pg_statistic_ext st' <> pg_statistic_ext st)
   <->
   SearchSysCacheExists2_STATEXTNAMENSP (namestrcpy namestr) nsp st = Ok (false, st)
   /\ relkind_has_statistics (rd_relkind rel)
   /\ Forall (fun attname => column_usable (rd_id rel) attname = true) (keys stmt)
   /\ (2 <= List.length (keys stmt) <= STATS_MAX_DIMENSIONS)%nat
   /\ NoDup (map (column_attnum (rd_id rel)) (keys stmt))
   /\ forallb option_recognized (options stmt) = true
   /\ (USE_ASSERT_CHECKING = true ->
       select_kinds (options stmt) <> Ok (false, false))).
Proof.
  intros Hname Hrel. split.
  - intros (address & st' & Hrun & Hnew).
    destruct (CreateStatistics_Ok_inv _ _ _ _ Hrun)
      as (nsp' & namestr' & Hname' & [Hskip | Hcreated]).
    + destruct Hskip as (_ & _ & _ & ->). now elim Hnew.
    + rewrite Hname in Hname'. inversion Hname'; subst nsp' namestr'.
      destruct Hcreated
        as (Hfree & rel' & attnums & bn & bd & Hrel' & Hkeys & Hlen & Hscan & Hopts
            & Hassert & _).
      rewrite Hrel in Hrel'. inversion Hrel'; subst rel'.
      destruct (keys_loop_Ok_inv _ _ _ _ Hkeys) as (Husable & Hattnums & Hmax).
      simpl in Hattnums. subst attnums.
      specialize (Hmax (Nat.le_0_l _)). rewrite length_map in Hmax.
      split; [exact Hfree|]. split.
      { unfold CreateStatistics, bind, lift in Hrun.
        rewrite Hname, Hfree, Hrel in Hrun.
        unfold relkind_has_statistics.
        destruct (rd_relkind rel); auto; discriminate. }
      split; [exact Husable|]. split.
      { rewrite length_map in Hlen. lia. }
      split.
      { eapply Permutation_NoDup; [apply Permutation_sym, qsort_Permutation|].
        apply StronglySorted_lt_NoDup, has_adjacent_duplicate_NoDup; [|exact Hscan].
        apply qsort_StronglySorted, usable_attnums_int16. }
      split.
      { destruct (forallb option_recognized (options stmt)) eqn:Hrec; [reflexivity|].
        unfold select_kinds in Hopts.
        rewrite (options_loop_unrecognized _ _ _ _ Hrec) in Hopts. discriminate. }
      intros Hon Hoff. rewrite Hopts in Hoff.
      apply (Hassert Hon). apply enabled_types_nil. now inversion Hoff.
  - intros (Hfree & Hkind & Husable & Hlen & Hdistinct & Hrec & Hassert).
    destruct (select_kinds (options stmt)) as [[bn bd]|e|] eqn:Hopts.
    + eexists. eexists. split.
      * apply (CreateStatistics_valid_run stmt st nsp namestr rel bn bd); trivial.
        intros Hon Hnil. apply (Hassert Hon).
        apply enabled_types_nil in Hnil. now rewrite Hnil.
      * unfold with_statistics. cbn [pg_statistic_ext].
        intros Habs. apply (f_equal (@List.length _)) in Habs.
        rewrite length_app in Habs. simpl in Habs. lia.
    + apply select_kinds_error_code in Hopts. destruct Hopts as [_ Hopts].
      rewrite Hrec in Hopts. discriminate.
    + now apply select_kinds_not_Trap in Hopts.
Qed.

End StatsCmds.

(** ** The commands on the example database *)

Abbreviation example_CreateStatistics assert_checking :=
  (CreateStatistics Example.STATS_MAX_DIMENSIONS assert_checking
     Example.RelationRelationId Example.NamespaceRelationId
     Example.StatisticExtRelationId
     Example.QualifiedNameGetCreationNamespace Example.namestrcpy
     Example.relation_openrv Example.SearchSysCacheAttName
     Example.lookup_type_cache Example.GetUserId).

Abbreviation example_usable :=
  (column_usable Example.SearchSysCacheAttName Example.lookup_type_cache
     Example.t_relid).

Abbreviation example_attnum :=
  (column_attnum Example.SearchSysCacheAttName Example.t_relid).

Abbreviation example_t :=
  {| rd_id := Example.t_relid; rd_relkind := RELKIND_RELATION |}.

Local Open Scope string_scope.

Example qsort_compare_int16_example :
  qsort compare_int16 [3; -1; 2; 2] = [-1; 2; 2; 3]
  /\ has_adjacent_duplicate (qsort compare_int16 [3; -1; 2; 2]) = true
  /\ has_adjacent_duplicate (qsort compare_int16 [3; -1; 2]) = false.
Proof. repeat split. Qed.

(** The attribute numbers of the example are [int16] values. *)
Lemma Example_attnum_int16 (relid : Oid) (attname : string)
    (attForm : FormData_pg_attribute) :
  Example.SearchSysCacheAttName relid attname = Some attForm ->
  int16_range (attnum attForm).
Proof.
  unfold Example.SearchSysCacheAttName. intros H.
  match type of H with
  | match ?found with _ => _ end = _ => destruct found as [row|] eqn:E; [|discriminate]
  end.
  inversion H; subst. apply find_some in E. destruct E as [Hin _].
  unfold Example.pg_attribute in Hin. simpl in Hin.
  unfold int16_range, INT16_MIN, INT16_MAX.
  repeat (destruct Hin as [<-|Hin]; [simpl; lia|]). contradiction.
Qed.

(** C1 on the example: [CREATE STATISTICS s2 ON b, a FROM t] while [s1]
    exists. *)
Lemma CreateStatistics_valid_columns_witness :
  exists tup st',
    example_CreateStatistics true (Example.create false "s2" ["b"; "a"] []) Example.with_s1
      = Ok (ObjectAddressSet Example.StatisticExtRelationId (t_oid tup), st')
    /\ pg_statistic_ext st' = [Example.s1; tup]
    /\ Permutation [2; 1] (stxkeys (t_data tup))
    /\ StronglySorted Z.lt (stxkeys (t_data tup))
    /\ stxndistinct (t_data tup) = None
    /\ stxdependencies (t_data tup) = None
    /\ forall cols,
         Permutation ["b"; "a"] cols ->
         example_CreateStatistics true
           (with_keys (Example.create false "s2" ["b"; "a"] []) cols) Example.with_s1
         = example_CreateStatistics true
             (Example.create false "s2" ["b"; "a"] []) Example.with_s1.
Proof.
  apply (CreateStatistics_valid_columns
           Example.STATS_MAX_DIMENSIONS true
           Example.RelationRelationId Example.NamespaceRelationId
           Example.StatisticExtRelationId
           Example.QualifiedNameGetCreationNamespace Example.namestrcpy
           Example.relation_openrv Example.SearchSysCacheAttName
           Example.lookup_type_cache Example.GetUserId
           Example_attnum_int16
           (Example.create false "s2" ["b"; "a"] []) Example.with_s1
           Example.public "s2" example_t true true).
  - reflexivity.
  - reflexivity.
  - reflexivity.
  - left. reflexivity.
  - reflexivity.
  - intros _. discriminate.
  - simpl. unfold Example.STATS_MAX_DIMENSIONS. lia.
  - repeat constructor.
  - repeat constructor; simpl; intuition discriminate.
Defined.

(** C2 on the example: [s1] created again, without and with
    [IF NOT EXISTS]. *)
Lemma CreateStatistics_duplicate_name_witness :
  example_CreateStatistics true (Example.create false "s1" ["a"; "b"] []) Example.with_s1
    = Error ERRCODE_DUPLICATE_OBJECT
  /\
  exists address st',
    example_CreateStatistics true (Example.create true "s1" ["a"; "b"] []) Example.with_s1
      = Ok (address, st')
    /\ pg_statistic_ext st' = pg_statistic_ext Example.with_s1
    /\ pg_depend st' = pg_depend Example.with_s1
    /\ nextOid st' = nextOid Example.with_s1
    /\ effects st' = [Eff_ereport_NOTICE ERRCODE_DUPLICATE_OBJECT].
Proof.
  split.
  - apply (CreateStatistics_duplicate_name
             Example.STATS_MAX_DIMENSIONS true
             Example.RelationRelationId Example.NamespaceRelationId
             Example.StatisticExtRelationId
             Example.QualifiedNameGetCreationNamespace Example.namestrcpy
             Example.relation_openrv Example.SearchSysCacheAttName
             Example.lookup_type_cache Example.GetUserId
             (Example.create false "s1" ["a"; "b"] []) Example.with_s1
             Example.public "s1"); reflexivity.
  - apply (CreateStatistics_duplicate_name
             Example.STATS_MAX_DIMENSIONS true
             Example.RelationRelationId Example.NamespaceRelationId
             Example.StatisticExtRelationId
             Example.QualifiedNameGetCreationNamespace Example.namestrcpy
             Example.relation_openrv Example.SearchSysCacheAttName
             Example.lookup_type_cache Example.GetUserId
             (Example.create true "s1" ["a"; "b"] []) Example.with_s1
             Example.public "s1"); reflexivity.
Defined.

(** C9 on the example: [CREATE STATISTICS IF NOT EXISTS s1 ...]. *)
Lemma CreateStatistics_skip_address_witness :
  exists address st',
    example_CreateStatistics true (Example.create true "s1" ["a"; "b"] []) Example.with_s1
      = Ok (address, st')
    /\ address = InvalidObjectAddress
    /\ classId address = 0 /\ objectId address = 0 /\ objectSubId address = 0
    /\ forall tup,
         In tup (pg_statistic_ext Example.with_s1) ->
         address <> ObjectAddressSet Example.StatisticExtRelationId (HeapTupleGetOid tup).
Proof.
  apply (CreateStatistics_skip_address
           Example.STATS_MAX_DIMENSIONS true
           Example.RelationRelationId Example.NamespaceRelationId
           Example.StatisticExtRelationId
           Example.QualifiedNameGetCreationNamespace Example.namestrcpy
           Example.relation_openrv Example.SearchSysCacheAttName
           Example.lookup_type_cache Example.GetUserId
           (Example.create true "s1" ["a"; "b"] []) Example.with_s1
           Example.public "s1").
  - reflexivity.
  - reflexivity.
  - reflexivity.
  - discriminate.
Defined.

(** C4 on two option lists whose values are all [false]. *)
Lemma select_kinds_policy_witness :
  select_kinds [{| defname := "dependencies"; defarg := false |};
                {| defname := "ndistinct"; defarg := false |}] = Ok (false, false)
  /\ select_kinds [{| defname := "ndistinct"; defarg := false |}] = Ok (false, false).
Proof.
  destruct select_kinds_policy as (_ & _ & Hloop & Hone).
  split.
  - apply (Hloop _ false false true); [discriminate|reflexivity].
  - apply Hone. left. reflexivity.
Defined.

(** C3.  [CREATE STATISTICS s2 ON a, b FROM t WITH (ndistinct = false)]:
    the option loop leaves both flags off and marks a type as requested,
    so no type is enabled and [ntypes] is 0.  With assertions compiled in
    the command stops at [Assert(ntypes > 0 && ...)]; without them it
    stores a statistics object whose list of kinds is empty. *)
Lemma CreateStatistics_no_kind_selected :
  select_kinds [{| defname := "ndistinct"; defarg := false |}] = Ok (false, false)
  /\ enabled_types false false = []
  /\ example_CreateStatistics true
       (Example.create false "s2" ["a"; "b"]
          [{| defname := "ndistinct"; defarg := false |}]) Example.empty
     = Trap
  /\ exists tup st',
       example_CreateStatistics false
         (Example.create false "s2" ["a"; "b"]
            [{| defname := "ndistinct"; defarg := false |}]) Example.empty
       = Ok (ObjectAddressSet Example.StatisticExtRelationId (t_oid tup), st')
       /\ pg_statistic_ext st' = [tup]
       /\ stxkeys (t_data tup) = [1; 2]
       /\ stxkind (t_data tup) = [].
Proof.
  split; [reflexivity|]. split; [reflexivity|]. split; [reflexivity|].
  exists (new_statistics Example.GetUserId Example.empty Example.t_relid "s2"
            Example.public [1; 2] []).
  eexists. split; [lazy; reflexivity|]. simpl. auto.
Qed.

(** C5, counterexample.  Nine usable names, one of them twice, against a
    bound of eight: the command fails with [ERRCODE_TOO_MANY_COLUMNS],
    not with [ERRCODE_DUPLICATE_COLUMN]. *)
Lemma duplicate_column_beyond_bound :
  Forall (fun attname => example_usable attname = true)
         ["a"; "a"; "b"; "c"; "d"; "e"; "f"; "g"; "h"]
  /\ ~ NoDup (map example_attnum ["a"; "a"; "b"; "c"; "d"; "e"; "f"; "g"; "h"])
  /\ example_CreateStatistics true
       (Example.create false "s2" ["a"; "a"; "b"; "c"; "d"; "e"; "f"; "g"; "h"] [])
       Example.empty
     = Error ERRCODE_TOO_MANY_COLUMNS
  /\ example_CreateStatistics true
       (Example.create false "s2" ["a"; "a"; "b"; "c"; "d"; "e"; "f"; "g"; "h"] [])
       Example.empty
     <> Error ERRCODE_DUPLICATE_COLUMN.
Proof.
  split; [repeat constructor|].
  split.
  - intros H. inversion H as [|? ? Hnotin _]; subst. apply Hnotin. now left.
  - split; [reflexivity|]. vm_compute. discriminate.
Qed.

(** C5 on the example: one column, nine columns, and [a, b, a] in any
    order. *)
Lemma CreateStatistics_arity_and_duplicates_witness :
  example_CreateStatistics true (Example.create false "s2" ["a"] []) Example.empty
    = Error ERRCODE_INVALID_OBJECT_DEFINITION
  /\ example_CreateStatistics true
       (Example.create false "s2" ["a"; "b"; "c"; "d"; "e"; "f"; "g"; "h"; "i"] [])
       Example.empty
     = Error ERRCODE_TOO_MANY_COLUMNS
  /\ forall cols,
       Permutation ["a"; "b"; "a"] cols ->
       example_CreateStatistics true
         (with_keys (Example.create false "s2" ["a"; "b"; "a"] []) cols) Example.empty
       = Error ERRCODE_DUPLICATE_COLUMN.
Proof.
  assert (forall cols,
            Forall (fun attname => example_usable attname = true) cols ->
            let stmt := Example.create false "s2" cols [] in
            ((List.length (keys stmt) < 2)%nat ->
             example_CreateStatistics true stmt Example.empty
             = Error ERRCODE_INVALID_OBJECT_DEFINITION)
            /\
            ((Example.STATS_MAX_DIMENSIONS < List.length (keys stmt))%nat ->
             example_CreateStatistics true stmt Example.empty
             = Error ERRCODE_TOO_MANY_COLUMNS)
            /\
            ((List.length (keys stmt) <= Example.STATS_MAX_DIMENSIONS)%nat ->
             ~ NoDup (map example_attnum (keys stmt)) ->
             forall cols',
               Permutation (keys stmt) cols' ->
               example_CreateStatistics true (with_keys stmt cols') Example.empty
               = Error ERRCODE_DUPLICATE_COLUMN)) as Hrun.
  { intros cols Husable.
    apply (CreateStatistics_arity_and_duplicates
             Example.STATS_MAX_DIMENSIONS true
             Example.RelationRelationId Example.NamespaceRelationId
             Example.StatisticExtRelationId
             Example.QualifiedNameGetCreationNamespace Example.namestrcpy
             Example.relation_openrv Example.SearchSysCacheAttName
             Example.lookup_type_cache Example.GetUserId
             Example_attnum_int16
             (Example.create false "s2" cols []) Example.empty
             Example.public "s2" example_t).
    - reflexivity.
    - reflexivity.
    - reflexivity.
    - left. reflexivity.
    - unfold Example.STATS_MAX_DIMENSIONS. lia.
    - exact Husable. }
  split; [|split].
  - apply (Hrun ["a"]); [repeat constructor|simpl; lia].
  - apply (Hrun ["a"; "b"; "c"; "d"; "e"; "f"; "g"; "h"; "i"]);
      [repeat constructor|unfold Example.STATS_MAX_DIMENSIONS; simpl; lia].
  - apply (Hrun ["a"; "b"; "a"]).
    + repeat constructor.
    + unfold Example.STATS_MAX_DIMENSIONS. simpl. lia.
    + intros H. inversion H as [|? ? Hnotin _]; subst. apply Hnotin. right. now left.
Defined.

(** C10 on the example: ten names, the first nine usable with [a] twice,
    the tenth unknown. *)
Lemma CreateStatistics_too_many_before_duplicates_witness :
  keys_loop Example.STATS_MAX_DIMENSIONS Example.SearchSysCacheAttName
    Example.lookup_type_cache Example.t_relid
    ["a"; "a"; "b"; "c"; "d"; "e"; "f"; "g"; "h"; "nosuch"] []
  = Error ERRCODE_TOO_MANY_COLUMNS
  /\ example_CreateStatistics true
       (Example.create false "s2"
          ["a"; "a"; "b"; "c"; "d"; "e"; "f"; "g"; "h"; "nosuch"] [])
       Example.empty
     = Error ERRCODE_TOO_MANY_COLUMNS
  /\ (~ NoDup ["a"; "a"; "b"; "c"; "d"; "e"; "f"; "g"; "h"; "nosuch"] ->
      example_CreateStatistics true
        (Example.create false "s2"
           ["a"; "a"; "b"; "c"; "d"; "e"; "f"; "g"; "h"; "nosuch"] [])
        Example.empty
      <> Error ERRCODE_DUPLICATE_COLUMN).
Proof.
  apply (CreateStatistics_too_many_before_duplicates
           Example.STATS_MAX_DIMENSIONS true
           Example.RelationRelationId Example.NamespaceRelationId
           Example.StatisticExtRelationId
           Example.QualifiedNameGetCreationNamespace Example.namestrcpy
           Example.relation_openrv Example.SearchSysCacheAttName
           Example.lookup_type_cache Example.GetUserId
           (Example.create false "s2"
              ["a"; "a"; "b"; "c"; "d"; "e"; "f"; "g"; "h"; "nosuch"] [])
           Example.empty Example.public "s2" example_t).
  - reflexivity.
  - reflexivity.
  - reflexivity.
  - left. reflexivity.
  - unfold Example.STATS_MAX_DIMENSIONS. simpl. lia.
  - repeat constructor.
Defined.

(** C6, counterexample.  [CREATE STATISTICS s1 ON a, nosuch FROM t] while
    [s1] exists: the column loop would fail with
    [ERRCODE_UNDEFINED_COLUMN], but the command fails with
    [ERRCODE_DUPLICATE_OBJECT] before it opens the table.  And in a
    successful run the invalidation precedes the two dependencies. *)
Lemma existing_name_before_missing_column :
  keys_loop Example.STATS_MAX_DIMENSIONS Example.SearchSysCacheAttName
    Example.lookup_type_cache Example.t_relid ["a"; "nosuch"] []
  = Error ERRCODE_UNDEFINED_COLUMN
  /\ example_CreateStatistics true
       (Example.create false "s1" ["a"; "nosuch"] []) Example.with_s1
     = Error ERRCODE_DUPLICATE_OBJECT
  /\ example_CreateStatistics true
       (Example.create false "s1" ["a"; "nosuch"] []) Example.with_s1
     <> Error ERRCODE_UNDEFINED_COLUMN
  /\ exists address st' tup dep1 dep2,
       example_CreateStatistics true
         (Example.create false "s2" ["a"; "b"] []) Example.empty
       = Ok (address, st')
       /\ effects st' = [Eff_CatalogTupleInsert tup;
                         Eff_CacheInvalidateRelcache Example.t_relid;
                         Eff_recordDependencyOn dep1;
                         Eff_recordDependencyOn dep2].
Proof.
  split; [reflexivity|]. split; [reflexivity|].
  split; [vm_compute; discriminate|].
  do 5 eexists. split; lazy; reflexivity.
Qed.

(** C6 on the example: a taken name with any columns and options; a
    system column, and a repeated column, with any options; and the
    effects of a successful run. *)
Lemma CreateStatistics_step_order_witness :
  (forall cols opts,
     example_CreateStatistics true
       (with_options (with_keys (Example.create false "s1" ["a"; "b"] []) cols) opts)
       Example.with_s1
     = Error ERRCODE_DUPLICATE_OBJECT)
  /\
  (forall opts,
     example_CreateStatistics true
       (with_options (Example.create false "s2" ["a"; "ctid"] []) opts) Example.with_s1
     = Error ERRCODE_FEATURE_NOT_SUPPORTED)
  /\
  (forall opts,
     example_CreateStatistics true
       (with_options (Example.create false "s2" ["a"; "a"] []) opts) Example.with_s1
     = Error ERRCODE_DUPLICATE_COLUMN)
  /\
  (forall address st',
     example_CreateStatistics true
       (Example.create false "s2" ["b"; "a"] []) Example.with_s1
     = Ok (address, st') ->
     exists tup,
       address = ObjectAddressSet Example.StatisticExtRelationId (t_oid tup)
       /\ effects st' =
            [Eff_CatalogTupleInsert tup;
             Eff_CacheInvalidateRelcache Example.t_relid;
             Eff_recordDependencyOn
               (table_dependency Example.RelationRelationId
                  Example.StatisticExtRelationId (t_oid tup) Example.t_relid);
             Eff_recordDependencyOn
               (schema_dependency Example.NamespaceRelationId
                  Example.StatisticExtRelationId (t_oid tup) Example.public)]).
Proof.
  pose proof (fun stmt namestr =>
                CreateStatistics_step_order
                  Example.STATS_MAX_DIMENSIONS true
                  Example.RelationRelationId Example.NamespaceRelationId
                  Example.StatisticExtRelationId
                  Example.QualifiedNameGetCreationNamespace Example.namestrcpy
                  Example.relation_openrv Example.SearchSysCacheAttName
                  Example.lookup_type_cache Example.GetUserId
                  stmt Example.with_s1 Example.public namestr) as Horder.
  split; [|split; [|split]].
  - apply (proj1 (Horder (Example.create false "s1" ["a"; "b"] []) "s1" eq_refl)).
    reflexivity.
  - destruct (proj2 (Horder (Example.create false "s2" ["a"; "ctid"] []) "s2" eq_refl)
                eq_refl example_t eq_refl (or_introl eq_refl)) as [Hloop _].
    apply Hloop. reflexivity.
  - destruct (proj2 (Horder (Example.create false "s2" ["a"; "a"] []) "s2" eq_refl)
                eq_refl example_t eq_refl (or_introl eq_refl)) as [_ Hnorm].
    destruct (Hnorm [1; 1] eq_refl) as (_ & Hdup & _).
    apply Hdup; [simpl; lia|reflexivity].
  - destruct (proj2 (Horder (Example.create false "s2" ["b"; "a"] []) "s2" eq_refl)
                eq_refl example_t eq_refl (or_introl eq_refl)) as [_ Hnorm].
    destruct (Hnorm [2; 1] eq_refl) as (_ & _ & Hrun).
    destruct Hrun as [_ Heffects]; [simpl; lia|reflexivity|].
    exact Heffects.
Defined.

(** C7 on the example: removal of [s1], and of an identifier that is in
    no tuple. *)
Lemma RemoveStatisticsById_spec_witness :
  (exists st',
     RemoveStatisticsById 16450 Example.with_s1 = Ok (tt, st')
     /\ HeapTupleGetOid Example.s1 = 16450
     /\ effects st' = [Eff_CacheInvalidateRelcache Example.t_relid;
                       Eff_simple_heap_delete Example.s1]
     /\ Permutation (pg_statistic_ext Example.with_s1)
                    (Example.s1 :: pg_statistic_ext st')
     /\ pg_depend st' = pg_depend Example.with_s1
     /\ (NoDup (map t_oid (pg_statistic_ext Example.with_s1)) ->
         SearchSysCache1_STATEXTOID 16450 st' = Ok (None, st')))
  /\ RemoveStatisticsById 16451 Example.with_s1 = Error ERRCODE_INTERNAL_ERROR.
Proof.
  split.
  - apply (proj1 (RemoveStatisticsById_spec 16450 Example.with_s1) Example.s1).
    reflexivity.
  - apply (proj2 (RemoveStatisticsById_spec 16451 Example.with_s1)).
    reflexivity.
Defined.

(** C8 on the example: [CREATE STATISTICS s2 ON b, a FROM t WITH
    (dependencies = true)]. *)
Lemma CreateStatistics_dependencies_witness :
  exists nsp namestr rel tup dep_table dep_schema,
    Example.QualifiedNameGetCreationNamespace ["s2"] = Ok (nsp, namestr)
    /\ Example.relation_openrv "t" = Ok rel
    /\ pg_statistic_ext
         (with_statistics Example.RelationRelationId Example.NamespaceRelationId
            Example.StatisticExtRelationId Example.with_s1
            (new_statistics Example.GetUserId Example.with_s1 Example.t_relid "s2"
               Example.public [1; 2] [STATS_EXT_DEPENDENCIES]))
       = (pg_statistic_ext Example.with_s1 ++ [tup])%list
    /\ stxrelid (t_data tup) = RelationGetRelid rel
    /\ stxnamespace (t_data tup) = nsp
    /\ pg_depend
         (with_statistics Example.RelationRelationId Example.NamespaceRelationId
            Example.StatisticExtRelationId Example.with_s1
            (new_statistics Example.GetUserId Example.with_s1 Example.t_relid "s2"
               Example.public [1; 2] [STATS_EXT_DEPENDENCIES]))
       = (pg_depend Example.with_s1 ++ [dep_table; dep_schema])%list
    /\ (classId (depender dep_table) = Example.StatisticExtRelationId
        /\ objectId (depender dep_table) = HeapTupleGetOid tup
        /\ objectSubId (depender dep_table) = 0)
    /\ (classId (referenced dep_table) = Example.RelationRelationId
        /\ objectId (referenced dep_table) = RelationGetRelid rel
        /\ objectSubId (referenced dep_table) = 0)
    /\ deptype dep_table = DEPENDENCY_AUTO
    /\ (classId (depender dep_schema) = Example.StatisticExtRelationId
        /\ objectId (depender dep_schema) = HeapTupleGetOid tup
        /\ objectSubId (depender dep_schema) = 0)
    /\ (classId (referenced dep_schema) = Example.NamespaceRelationId
        /\ objectId (referenced dep_schema) = nsp
        /\ objectSubId (referenced dep_schema) = 0)
    /\ deptype dep_schema = DEPENDENCY_AUTO
    /\ (classId (ObjectAddressSet Example.StatisticExtRelationId 16500)
          = Example.StatisticExtRelationId
        /\ objectId (ObjectAddressSet Example.StatisticExtRelationId 16500)
          = HeapTupleGetOid tup
        /\ objectSubId (ObjectAddressSet Example.StatisticExtRelationId 16500) = 0).
Proof.
  apply (CreateStatistics_dependencies
           Example.STATS_MAX_DIMENSIONS true
           Example.RelationRelationId Example.NamespaceRelationId
           Example.StatisticExtRelationId
           Example.QualifiedNameGetCreationNamespace Example.namestrcpy
           Example.relation_openrv Example.SearchSysCacheAttName
           Example.lookup_type_cache Example.GetUserId
           (Example.create false "s2" ["b"; "a"]
              [{| defname := "dependencies"; defarg := true |}])
           Example.with_s1).
  - vm_compute. reflexivity.
  - simpl. discriminate.
Defined.

(** ** The further properties on the example database *)

Abbreviation example_s2 :=
  (new_statistics Example.GetUserId Example.with_s1 Example.t_relid "s2"
     Example.public [1; 2] [STATS_EXT_NDISTINCT; STATS_EXT_DEPENDENCIES]).

Abbreviation example_after_s2 :=
  (with_statistics Example.RelationRelationId Example.NamespaceRelationId
     Example.StatisticExtRelationId Example.with_s1 example_s2).

Abbreviation example_address_s2 :=
  (ObjectAddressSet Example.StatisticExtRelationId 16500).

Lemma example_create_s2 :
  example_CreateStatistics true (Example.create false "s2" ["b"; "a"] [])
    Example.with_s1
  = Ok (example_address_s2, example_after_s2).
Proof. vm_compute. reflexivity. Qed.

(** X1 at the two ends of the [int16] range. *)
Lemma compare_int16_sign_witness :
  compare_int16 (-32768) 32767 = -32768 - 32767
  /\ (compare_int16 (-32768) 32767 < 0 <-> -32768 < 32767)
  /\ (compare_int16 (-32768) 32767 = 0 <-> -32768 = 32767)
  /\ (compare_int16 (-32768) 32767 > 0 <-> -32768 > 32767)
  /\ compare_int16 32767 (-32768) = - compare_int16 (-32768) 32767.
Proof.
  apply (compare_int16_sign (-32768) 32767);
    unfold int16_range, INT16_MIN, INT16_MAX; lia.
Defined.

(** X2 on a list with a repetition. *)
Lemma sorted_scan_finds_duplicates_witness :
  has_adjacent_duplicate (qsort compare_int16 [3; 1; 3]) = false <-> NoDup [3; 1; 3].
Proof.
  apply (sorted_scan_finds_duplicates [3; 1; 3]).
  repeat constructor; unfold INT16_MIN, INT16_MAX; lia.
Defined.

(** X3 on the example: eight usable names, then an unknown one. *)
Lemma CreateStatistics_first_unusable_column_witness :
  example_CreateStatistics true
    (Example.create false "s2" ["a"; "b"; "c"; "d"; "e"; "f"; "g"; "h"; "nosuch"] [])
    Example.empty
  = Error ERRCODE_UNDEFINED_COLUMN.
Proof.
  apply (CreateStatistics_first_unusable_column
           Example.STATS_MAX_DIMENSIONS true
           Example.RelationRelationId Example.NamespaceRelationId
           Example.StatisticExtRelationId
           Example.QualifiedNameGetCreationNamespace Example.namestrcpy
           Example.relation_openrv Example.SearchSysCacheAttName
           Example.lookup_type_cache Example.GetUserId
           (Example.create false "s2"
              ["a"; "b"; "c"; "d"; "e"; "f"; "g"; "h"; "nosuch"] [])
           Example.empty Example.public "s2" example_t
           ["a"; "b"; "c"; "d"; "e"; "f"; "g"; "h"] "nosuch" []).
  - reflexivity.
  - reflexivity.
  - reflexivity.
  - left. reflexivity.
  - reflexivity.
  - repeat constructor.
  - unfold Example.STATS_MAX_DIMENSIONS. simpl. lia.
  - reflexivity.
Defined.

(** X4 on an accepted list and on one with an unknown name. *)
Lemma select_kinds_accepts_recognized_witness :
  (exists bn bd,
     select_kinds [{| defname := "ndistinct"; defarg := true |}] = Ok (bn, bd))
  /\ select_kinds [{| defname := "ndistinct"; defarg := true |};
                   {| defname := "mcv"; defarg := true |}]
     = Error ERRCODE_SYNTAX_ERROR.
Proof.
  split.
  - apply (proj1 (proj1 (select_kinds_accepts_recognized
                           [{| defname := "ndistinct"; defarg := true |}]))).
    reflexivity.
  - apply (proj1 (proj2 (select_kinds_accepts_recognized
                           [{| defname := "ndistinct"; defarg := true |};
                            {| defname := "mcv"; defarg := true |}]))).
    reflexivity.
Defined.

(** X5 on a list that names [ndistinct] twice. *)
Lemma select_kinds_last_option_wins_witness :
  select_kinds [{| defname := "ndistinct"; defarg := true |};
                {| defname := "dependencies"; defarg := true |};
                {| defname := "ndistinct"; defarg := false |}]
  = Ok (false, true).
Proof.
  apply (select_kinds_last_option_wins
           [{| defname := "ndistinct"; defarg := true |};
            {| defname := "dependencies"; defarg := true |};
            {| defname := "ndistinct"; defarg := false |}]).
  - discriminate.
  - reflexivity.
Defined.

(** X6 on the two orders of two options. *)
Lemma select_kinds_order_independent_witness :
  select_kinds [{| defname := "ndistinct"; defarg := true |};
                {| defname := "dependencies"; defarg := false |}]
  = select_kinds [{| defname := "dependencies"; defarg := false |};
                  {| defname := "ndistinct"; defarg := true |}].
Proof.
  apply select_kinds_order_independent.
  - repeat constructor; simpl; intuition discriminate.
  - apply perm_swap.
Defined.

(** X7 on the example: statistics on the view [v]. *)
Lemma CreateStatistics_wrong_object_type_witness :
  example_CreateStatistics true
    {| defnames := ["s2"]; relation := "v"; keys := ["a"; "b"]; options := [];
       if_not_exists := false |}
    Example.empty
  = Error ERRCODE_WRONG_OBJECT_TYPE.
Proof.
  apply (CreateStatistics_wrong_object_type
           Example.STATS_MAX_DIMENSIONS true
           Example.RelationRelationId Example.NamespaceRelationId
           Example.StatisticExtRelationId
           Example.QualifiedNameGetCreationNamespace Example.namestrcpy
           Example.relation_openrv Example.SearchSysCacheAttName
           Example.lookup_type_cache Example.GetUserId
           {| defnames := ["s2"]; relation := "v"; keys := ["a"; "b"]; options := [];
              if_not_exists := false |}
           Example.empty Example.public "s2"
           {| rd_id := Example.v_relid; rd_relkind := RELKIND_VIEW |}).
  - reflexivity.
  - reflexivity.
  - reflexivity.
  - unfold relkind_has_statistics. simpl. intuition discriminate.
Defined.

(** X8 on the example: valid columns and an unknown option. *)
Lemma CreateStatistics_syntax_error_witness :
  example_CreateStatistics true
    (Example.create false "s2" ["a"; "b"] [{| defname := "mcv"; defarg := true |}])
    Example.empty
  = Error ERRCODE_SYNTAX_ERROR.
Proof.
  apply (CreateStatistics_syntax_error
           Example.STATS_MAX_DIMENSIONS true
           Example.RelationRelationId Example.NamespaceRelationId
           Example.StatisticExtRelationId
           Example.QualifiedNameGetCreationNamespace Example.namestrcpy
           Example.relation_openrv Example.SearchSysCacheAttName
           Example.lookup_type_cache Example.GetUserId
           (Example.create false "s2" ["a"; "b"]
              [{| defname := "mcv"; defarg := true |}])
           Example.empty Example.public "s2" example_t).
  - reflexivity.
  - reflexivity.
  - reflexivity.
  - left. reflexivity.
  - exists [1; 2]. split; [reflexivity|]. split; [simpl; lia|]. split; reflexivity.
Defined.

(** X9 on the example: the row of [s2]. *)
Lemma CreateStatistics_stored_row_witness :
  exists tup,
    pg_statistic_ext example_after_s2 = (pg_statistic_ext Example.with_s1 ++ [tup])%list
    /\ HeapTupleGetOid tup = nextOid Example.with_s1
    /\ example_address_s2
       = ObjectAddressSet Example.StatisticExtRelationId (HeapTupleGetOid tup)
    /\ StronglySorted Z.lt (stxkeys (t_data tup))
    /\ (2 <= List.length (stxkeys (t_data tup)) <= Example.STATS_MAX_DIMENSIONS)%nat
    /\ Forall (fun a => 0 <= a <= INT16_MAX) (stxkeys (t_data tup))
    /\ stxowner (t_data tup) = Example.GetUserId
    /\ stxndistinct (t_data tup) = None
    /\ stxdependencies (t_data tup) = None
    /\ NoDup (stxkind (t_data tup))
    /\ (true = true -> stxkind (t_data tup) <> []).
Proof.
  apply (CreateStatistics_stored_row
           Example.STATS_MAX_DIMENSIONS true
           Example.RelationRelationId Example.NamespaceRelationId
           Example.StatisticExtRelationId
           Example.QualifiedNameGetCreationNamespace Example.namestrcpy
           Example.relation_openrv Example.SearchSysCacheAttName
           Example.lookup_type_cache Example.GetUserId
           Example_attnum_int16
           (Example.create false "s2" ["b"; "a"] []) Example.with_s1).
  - exact example_create_s2.
  - simpl. discriminate.
Defined.

(** X10 on the example: [s1] and [s2]. *)
Lemma CreateStatistics_keeps_names_unique_witness :
  NoDup (statistics_names example_after_s2).
Proof.
  apply (CreateStatistics_keeps_names_unique
           Example.STATS_MAX_DIMENSIONS true
           Example.RelationRelationId Example.NamespaceRelationId
           Example.StatisticExtRelationId
           Example.QualifiedNameGetCreationNamespace Example.namestrcpy
           Example.relation_openrv Example.SearchSysCacheAttName
           Example.lookup_type_cache Example.GetUserId
           (Example.create false "s2" ["b"; "a"] []) Example.with_s1
           example_after_s2 example_address_s2).
  - repeat constructor. simpl. intuition.
  - exact example_create_s2.
Defined.

(** X11 on the example. *)
Lemma CreateStatistics_append_only_witness :
  exists rows deps effs,
    pg_statistic_ext example_after_s2 = (pg_statistic_ext Example.with_s1 ++ rows)%list
    /\ pg_depend example_after_s2 = (pg_depend Example.with_s1 ++ deps)%list
    /\ effects example_after_s2 = (effects Example.with_s1 ++ effs)%list
    /\ nextOid Example.with_s1 <= nextOid example_after_s2
    /\ List.length deps = (2 * List.length rows)%nat
    /\ (List.length rows <= 1)%nat.
Proof.
  apply (CreateStatistics_append_only
           Example.STATS_MAX_DIMENSIONS true
           Example.RelationRelationId Example.NamespaceRelationId
           Example.StatisticExtRelationId
           Example.QualifiedNameGetCreationNamespace Example.namestrcpy
           Example.relation_openrv Example.SearchSysCacheAttName
           Example.lookup_type_cache Example.GetUserId
           (Example.create false "s2" ["b"; "a"] []) Example.with_s1
           example_after_s2 example_address_s2).
  exact example_create_s2.
Defined.

(** X12 on the example: [s2] created a second time. *)
Lemma CreateStatistics_twice_witness :
  example_CreateStatistics true (Example.create false "s2" ["b"; "a"] [])
    example_after_s2
  = Error ERRCODE_DUPLICATE_OBJECT.
Proof.
  apply (CreateStatistics_twice
           Example.STATS_MAX_DIMENSIONS true
           Example.RelationRelationId Example.NamespaceRelationId
           Example.StatisticExtRelationId
           Example.QualifiedNameGetCreationNamespace Example.namestrcpy
           Example.relation_openrv Example.SearchSysCacheAttName
           Example.lookup_type_cache Example.GetUserId
           (Example.create false "s2" ["b"; "a"] []) Example.with_s1
           example_after_s2 example_address_s2).
  exact example_create_s2.
Defined.

(** X13 on the example: [s2] created, then removed. *)
Lemma CreateStatistics_then_RemoveStatisticsById_witness :
  exists st2 rel tup,
    Example.relation_openrv "t" = Ok rel
    /\ RemoveStatisticsById 16500 example_after_s2 = Ok (tt, st2)
    /\ pg_statistic_ext st2 = pg_statistic_ext Example.with_s1
    /\ pg_depend st2 = pg_depend example_after_s2
    /\ List.length (pg_depend st2) = (List.length (pg_depend Example.with_s1) + 2)%nat
    /\ effects st2 =
         (effects example_after_s2
          ++ [Eff_CacheInvalidateRelcache (RelationGetRelid rel);
              Eff_simple_heap_delete tup])%list.
Proof.
  apply (CreateStatistics_then_RemoveStatisticsById
           Example.STATS_MAX_DIMENSIONS true
           Example.RelationRelationId Example.NamespaceRelationId
           Example.StatisticExtRelationId
           Example.QualifiedNameGetCreationNamespace Example.namestrcpy
           Example.relation_openrv Example.SearchSysCacheAttName
           Example.lookup_type_cache Example.GetUserId
           (Example.create false "s2" ["b"; "a"] []) Example.with_s1
           example_after_s2 example_address_s2).
  - exact example_create_s2.
  - simpl. discriminate.
  - intros row [<-|[]]. simpl. discriminate.
Defined.

(** X14 on the example: [s2] removed from the state that holds [s1] and
    [s2]. *)
Lemma RemoveStatisticsById_frame_witness :
  (forall oid,
     oid <> 16500 ->
     exists found,
       SearchSysCache1_STATEXTOID oid example_after_s2 = Ok (found, example_after_s2)
       /\ SearchSysCache1_STATEXTOID oid
            (mkState [Example.s1] (pg_depend example_after_s2) 16501
               (effects example_after_s2
                ++ [Eff_CacheInvalidateRelcache Example.t_relid;
                    Eff_simple_heap_delete example_s2])%list)
          = Ok (found,
                mkState [Example.s1] (pg_depend example_after_s2) 16501
                  (effects example_after_s2
                   ++ [Eff_CacheInvalidateRelcache Example.t_relid;
                       Eff_simple_heap_delete example_s2])%list))
  /\ (List.length (pg_statistic_ext example_after_s2) = 2%nat)
  /\ (NoDup (map t_oid (pg_statistic_ext example_after_s2)) ->
      RemoveStatisticsById 16500
        (mkState [Example.s1] (pg_depend example_after_s2) 16501
           (effects example_after_s2
            ++ [Eff_CacheInvalidateRelcache Example.t_relid;
                Eff_simple_heap_delete example_s2])%list)
      = Error ERRCODE_INTERNAL_ERROR).
Proof.
  apply (RemoveStatisticsById_frame 16500 example_after_s2
           (mkState [Example.s1] (pg_depend example_after_s2) 16501
              (effects example_after_s2
               ++ [Eff_CacheInvalidateRelcache Example.t_relid;
                   Eff_simple_heap_delete example_s2])%list)).
  vm_compute. reflexivity.
Defined.

(** X15 on the example: a name given twice is resolved twice. *)
Lemma keys_loop_resolves_witness :
  keys_loop Example.STATS_MAX_DIMENSIONS Example.SearchSysCacheAttName
    Example.lookup_type_cache Example.t_relid ["b"; "a"; "b"] []
  = Ok [2; 1; 2].
Proof.
  apply (proj2 (keys_loop_resolves
                  Example.STATS_MAX_DIMENSIONS Example.SearchSysCacheAttName
                  Example.lookup_type_cache Example.t_relid ["b"; "a"; "b"] [2; 1; 2])).
  split; [repeat constructor|].
  split; [unfold Example.STATS_MAX_DIMENSIONS; simpl; lia|reflexivity].
Defined.

(** X16 on the example: [WITH (dependencies = false)]. *)
Lemma CreateStatistics_assertion_failure_witness :
  example_CreateStatistics true
    (Example.create false "s2" ["a"; "b"]
       [{| defname := "dependencies"; defarg := false |}])
    Example.empty
  = Trap.
Proof.
  apply (CreateStatistics_assertion_failure
           Example.STATS_MAX_DIMENSIONS true
           Example.RelationRelationId Example.NamespaceRelationId
           Example.StatisticExtRelationId
           Example.QualifiedNameGetCreationNamespace Example.namestrcpy
           Example.relation_openrv Example.SearchSysCacheAttName
           Example.lookup_type_cache Example.GetUserId
           (Example.create false "s2" ["a"; "b"]
              [{| defname := "dependencies"; defarg := false |}])
           Example.empty Example.public "s2" example_t).
  - reflexivity.
  - reflexivity.
  - reflexivity.
  - left. reflexivity.
  - split; [reflexivity|]. split; [reflexivity|].
    exists [1; 2]. split; [reflexivity|]. split; [simpl; lia|reflexivity].
Defined.

(** X17 on the example: [CREATE STATISTICS s2 ON b, a FROM t] while [s1]
    exists. *)
Lemma CreateStatistics_creates_iff_witness :
  exists address st',
    example_CreateStatistics true (Example.create false "s2" ["b"; "a"] [])
      Example.with_s1
    = Ok (address, st')
    /\ pg_statistic_ext st' <> pg_statistic_ext Example.with_s1.
Proof.
  apply (CreateStatistics_creates_iff
           Example.STATS_MAX_DIMENSIONS true
           Example.RelationRelationId Example.NamespaceRelationId
           Example.StatisticExtRelationId
           Example.QualifiedNameGetCreationNamespace Example.namestrcpy
           Example.relation_openrv Example.SearchSysCacheAttName
           Example.lookup_type_cache Example.GetUserId
           Example_attnum_int16
           (Example.create false "s2" ["b"; "a"] []) Example.with_s1
           Example.public "s2" example_t).
  - reflexivity.
  - reflexivity.
  - split; [reflexivity|]. split; [left; reflexivity|].
    split; [repeat constructor|].
    split; [unfold Example.STATS_MAX_DIMENSIONS; simpl; lia|].
    split; [repeat constructor; simpl; intuition discriminate|].
    split; [reflexivity|]. intros _. discriminate.
Defined.

